(** * echobot: the relay ledger, admission control and fan-out of [echobot.py]

    A shallow embedding of the handlers of [src/echobot.py].  The MongoDB
    collections are lists of documents in insertion (natural) order, the
    Telegram transport is an oracle answering each call, and every handler
    is a computation in a state-and-exception monad whose state survives a
    raised exception, as the database does in Python.

    Modelling conventions:
    - identifiers (user ids, message ids) are [Z]; those that come from
      Telegram or from the store fit in 8 bytes, and the one integer a user
      chooses freely, the argument of [/admin] and [/vip], is checked where
      it reaches the store ([save_user]);
    - a [datetime] is a [Z] count of microseconds, a [timedelta] likewise;
      the store keeps a timestamp in whole milliseconds, rounded down;
    - [datetime.now()] reads the [clock] of the world; the clock does not
      advance while one event is handled;
    - [asyncio.gather] over the per-recipient tasks is run in directory
      order, each task to completion, on the directory as it is when the
      fan-out starts; the code fixes no order between the tasks, so what is
      stated of a fan-out is meant of its effects as a collection;
    - a [str] is its UTF-8 bytes; [int] on text that is not pure ASCII or
      is longer than 640 characters depends on the Unicode tables and the
      digit limit of the interpreter and is a parameter;
    - the elapsed-time part of the broadcast confirmation (a float) is not
      modelled, the count is;
    - [message.reply] is taken to succeed;
    - the startup and shutdown hooks are not part of the embedding. *)

From Stdlib Require Import ZArith List String Ascii Bool Lia DecimalString DecimalPos
  Permutation.
Import ListNotations.
Local Open Scope Z_scope.

(** ** Documents *)

(** [class User(BaseModel)] and the documents of [db.users]. *)
Record User := mkUser {
  user_id : Z;
  admin : bool;
  vip : bool
}.

(** Documents of [db.settings]. *)
Record Settings := mkSettings {
  settings_user_id : Z;
  show_nickname_inline : bool
}.

(** Documents of [db.cooldown]. *)
Record Cooldown := mkCooldown {
  cooldown_user_id : Z;
  sent_at : Z
}.

(** Documents of [db.sent_messages], fields in the order of the dictionary
    built by [save_sent_message]. *)
Record SentMessage := mkSentMessage {
  sender_id : Z;
  sender_message_id : Z;
  receiver_id : Z;
  receiver_message_id : Z;
  original_message_id : Z
}.

(** ** Collections: the MongoDB operations the bot uses *)

Section Collection.
Context {A : Type}.

(** [find_one(filter)]: the first matching document in natural order. *)
Definition find_one (p : A -> bool) (c : list A) : option A := List.find p c.

(** [find(filter)]: every matching document, in natural order. *)
Definition find_many (p : A -> bool) (c : list A) : list A := List.filter p c.

(** [insert_one(doc)]: the document is appended; no collection of the bot
    has a unique index besides [_id], which the driver generates. *)
Definition insert_one (d : A) (c : list A) : list A := c ++ [d].

(** [update_one(filter, {"$set": ..}, upsert=True)]: the first match is
    rewritten by [f]; without a match [d] is inserted. *)
Fixpoint upsert_one (p : A -> bool) (f : A -> A) (d : A) (c : list A) : list A :=
  match c with
  | [] => [d]
  | x :: c' => if p x then f x :: c' else x :: upsert_one p f d c'
  end.

(** [delete_one(filter)]: the first match is removed. *)
Fixpoint delete_one (p : A -> bool) (c : list A) : list A :=
  match c with
  | [] => []
  | x :: c' => if p x then c' else x :: delete_one p c'
  end.

(** [delete_many(filter)]: every match is removed. *)
Definition delete_many (p : A -> bool) (c : list A) : list A :=
  List.filter (fun x => negb (p x)) c.
End Collection.

(** ** Messages, transport and effects *)

(** [message.reply_to_message]: its id and [from_user.is_bot]. *)
Record ReplyTo := mkReplyTo {
  reply_message_id : Z;
  reply_from_is_bot : bool
}.

(** The fields of [types.Message] the handlers read. *)
Record Message := mkMessage {
  from_user_id : Z;
  from_user_username : option string;
  message_id : Z;
  reply_to_message : option ReplyTo;
  args : string;
  text : string
}.

(** The exceptions that occur. [OverflowError] is what the store's driver
    raises for an integer beyond 8 bytes; [OtherError] stands for any other
    subclass of [Exception] raised by the transport. *)
Inductive Exn :=
| TypeError
| ValueError
| OverflowError
| BotBlocked
| UserDeactivated
| OtherError.

(** The value of [get_sent_message_id]: a receiver-side message id, a whole
    document, or [None]. *)
Inductive Lookup :=
| FoundId (id : Z)
| FoundDoc (d : SentMessage)
| NotFound.

(** The texts the handlers send with [message.reply]. *)
Inductive ReplyText :=
| Done                       (* 'Готово!' *)
| NoRightsCommand            (* 'У вас нет прав для выполнения этой команды.' *)
| Welcome                    (* 'Привет! Добро пожаловать в наш бот.' *)
| SentToUsers (count : nat)  (* 'Ваше сообщение было отправлено {} пользователям за {} секунд!' *)
| NoRightsDelete             (* 'У вас нет прав для удаления сообщений.' *)
| DeletedForAll              (* 'Сообщение было удалено у всех пользователей.' *)
| NoRightsBan                (* 'У вас нет прав для блокировки пользователя.' *)
| Banned (id : Z)            (* 'Пользователь был заблокирован!\nАйди: {}' *)
| NoRightsUnban              (* 'У вас нет прав для разблокировки пользователя.' *)
| Unbanned (id : Z)          (* 'Пользователь был разблокирован!\nАйди: {}' *)
| SomethingWentWrong         (* 'Что-то пошло не так' *)
| PleaseWait.                (* 'Пожалуйста, подождите 1 минуту перед отправкой следующего сообщения.' *)

(** What a handler does to the outside, in the order it does it. *)
Inductive Effect :=
| Reply (chat_id : Z) (t : ReplyText)
| CopyMessage (chat_id from_chat_id msg_id : Z) (reply_markup : option string)
              (reply_to_message_id : Lookup)
| EditMessageText (chat_id msg_id : Z) (new_text : string) (reply_markup : option string)
| DeleteMessage (chat_id msg_id : Z)
| LogException (e : Exn).

(** The answers of the transport. A call is answered from its arguments. *)
Record Transport := mkTransport {
  copy_message : Z -> Z -> Z -> Lookup -> Exn + Z;
  edit_message_text : Z -> Z -> option Exn;
  delete_message : Z -> Z -> option Exn
}.

(** ** The world and the monad of handlers *)

Record World := mkWorld {
  users : list User;
  settings : list Settings;
  cooldown : list Cooldown;
  sent_messages : list SentMessage;
  clock : Z;
  trace : list Effect
}.

Definition with_users (f : list User -> list User) (w : World) : World :=
  mkWorld (f (users w)) (settings w) (cooldown w) (sent_messages w) (clock w) (trace w).
Definition with_settings (f : list Settings -> list Settings) (w : World) : World :=
  mkWorld (users w) (f (settings w)) (cooldown w) (sent_messages w) (clock w) (trace w).
Definition with_cooldown (f : list Cooldown -> list Cooldown) (w : World) : World :=
  mkWorld (users w) (settings w) (f (cooldown w)) (sent_messages w) (clock w) (trace w).
Definition with_sent_messages (f : list SentMessage -> list SentMessage) (w : World) : World :=
  mkWorld (users w) (settings w) (cooldown w) (f (sent_messages w)) (clock w) (trace w).
Definition emit (e : Effect) (w : World) : World :=
  mkWorld (users w) (settings w) (cooldown w) (sent_messages w) (clock w) (trace w ++ [e]).

(** A handler either returns or raises; the world it leaves is kept in both
    cases. *)
Inductive Outcome (A : Type) :=
| Ret (a : A) (w : World)
| Raise (e : Exn) (w : World).
Arguments Ret {A} a w.
Arguments Raise {A} e w.

Definition M (A : Type) : Type := World -> Outcome A.

Definition ret {A} (a : A) : M A := fun w => Ret a w.

Definition bind {A B} (c : M A) (k : A -> M B) : M B :=
  fun w => match c w with
           | Ret a w' => k a w'
           | Raise e w' => Raise e w'
           end.

Definition raise {A} (e : Exn) : M A := fun w => Raise e w.

(** [try: c  except ... : h e] *)
Definition try_except {A} (c : M A) (h : Exn -> M A) : M A :=
  fun w => match c w with
           | Ret a w' => Ret a w'
           | Raise e w' => h e w'
           end.

Definition gets {A} (f : World -> A) : M A := fun w => Ret (f w) w.
Definition modify (f : World -> World) : M unit := fun w => Ret tt (f w).

Declare Scope bot_scope.
Delimit Scope bot_scope with bot.
Notation "x <- c ;; k" := (bind c (fun x => k))
  (at level 100, c at next level, right associativity) : bot_scope.
Notation "c ;;; k" := (bind c (fun _ => k))
  (at level 100, right associativity) : bot_scope.
Local Open Scope bot_scope.

(** The world a computation leaves, however it ends. *)
Definition final {A} (o : Outcome A) : World :=
  match o with Ret _ w => w | Raise _ w => w end.

(** Python truthiness of an optional integer argument: [None] and [0] are
    false. *)
Definition truthy (x : option Z) : bool :=
  match x with
  | Some z => negb (z =? 0)
  | None => false
  end.

(** ** Python's [int(str)] and [str(int)] on ASCII text *)

(** The blanks [int] skips around an ASCII numeral: tab to carriage return
    and the space. *)
Definition is_space (c : ascii) : bool :=
  let n := nat_of_ascii c in
  ((9 <=? n) && (n <=? 13) || (n =? 32))%nat.

Definition digit_of (c : ascii) : option Z :=
  let n := nat_of_ascii c in
  if ((48 <=? n) && (n <=? 57))%nat then Some (Z.of_nat n - 48) else None.

Fixpoint lstrip (s : string) : string :=
  match s with
  | String c s' => if is_space c then lstrip s' else s
  | EmptyString => EmptyString
  end.

Fixpoint all_space (s : string) : bool :=
  match s with
  | String c s' => is_space c && all_space s'
  | EmptyString => true
  end.

(** Decimal digits with single underscores between them; [after_digit]
    tells whether the previous character was a digit. *)
Fixpoint int_digits (s : string) (acc : Z) (after_digit : bool) : option Z :=
  match s with
  | EmptyString => if after_digit then Some acc else None
  | String c s' =>
      match digit_of c with
      | Some d => int_digits s' (acc * 10 + d) true
      | None =>
          if after_digit then
            if Ascii.eqb c "_" then
              match s' with
              | String c' _ =>
                  match digit_of c' with
                  | Some _ => int_digits s' acc false
                  | None => None
                  end
              | EmptyString => None
              end
            else if all_space s then Some acc else None
          else None
      end
  end.

(** [int(s)] for pure ASCII [s] of at most 640 characters: [None] is
    [ValueError]. *)
Definition py_int_ascii (s : string) : option Z :=
  match lstrip s with
  | String "-" s' => option_map Z.opp (int_digits s' 0 false)
  | String "+" s' => int_digits s' 0 false
  | s' => int_digits s' 0 false
  end.

Fixpoint is_ascii_text (s : string) : bool :=
  match s with
  | EmptyString => true
  | String c s' => (nat_of_ascii c <? 128)%nat && is_ascii_text s'
  end.

(** [str(n)] *)
Definition py_str (n : Z) : string := NilZero.string_of_int (Z.to_int n).

(** A timestamp as the store keeps it: whole milliseconds, rounded down. *)
Definition floor_ms (t : Z) : Z := t / 1000 * 1000.

(** The integers the store accepts: 8 bytes, signed. *)
Definition int64 (n : Z) : bool := (- 2 ^ 63 <=? n) && (n <? 2 ^ 63).

(** [timedelta.total_seconds() < secs], on microseconds. *)
Definition total_seconds_lt (delta secs : Z) : bool := delta <? secs * 1000000.

Definition timedelta_days (d : Z) : Z := d * 86400 * 1000000.
Definition timedelta_seconds (s : Z) : Z := s * 1000000.

Definition val (x : option Z) : Z :=
  match x with Some z => z | None => 0 end.

(** ** The bot *)

Section Bot.
(** [config.admin_id] and the transport the bot talks to. *)
Variable admin_id : Z.
Variable tg : Transport.

(** [int] on text that is not pure ASCII or is longer than 640 characters,
    where it depends on the Unicode tables and on the digit limit of the
    interpreter. *)
Variable int_other : string -> option Z.

(** [int(s)]: [None] is [ValueError]. *)
Definition py_int (s : string) : option Z :=
  if is_ascii_text s && (String.length s <=? 640)%nat then py_int_ascii s
  else int_other s.

Fixpoint for_each {A} (l : list A) (body : A -> M unit) : M unit :=
  match l with
  | [] => ret tt
  | x :: l' => body x ;;; for_each l' body
  end.

Definition datetime_now : M Z := gets clock.

Definition message_reply (message : Message) (t : ReplyText) : M unit :=
  modify (emit (Reply (from_user_id message) t)).

Definition logging_exception (e : Exn) : M unit :=
  modify (emit (LogException e)).

Definition bot_copy_message (chat_id from_chat_id msg_id : Z)
    (reply_markup : option string) (reply_to_message_id : Lookup) : M Z :=
  modify (emit (CopyMessage chat_id from_chat_id msg_id reply_markup reply_to_message_id)) ;;;
  match copy_message tg chat_id from_chat_id msg_id reply_to_message_id with
  | inr id => ret id
  | inl e => raise e
  end.

Definition bot_edit_message_text (chat_id msg_id : Z) (new_text : string)
    (reply_markup : option string) : M unit :=
  modify (emit (EditMessageText chat_id msg_id new_text reply_markup)) ;;;
  match edit_message_text tg chat_id msg_id with
  | None => ret tt
  | Some e => raise e
  end.

Definition bot_delete_message (chat_id msg_id : Z) : M unit :=
  modify (emit (DeleteMessage chat_id msg_id)) ;;;
  match delete_message tg chat_id msg_id with
  | None => ret tt
  | Some e => raise e
  end.

Definition by_user_id (id : Z) (u : User) : bool := user_id u =? id.

(** The document unpacked into [User]: unpacking [None] raises
    [TypeError]. *)
Definition User_of_doc (doc : option User) : M User :=
  match doc with
  | Some u => ret u
  | None => raise TypeError
  end.

Definition users_find_one (id : Z) : M (option User) :=
  gets (fun w => find_one (by_user_id id) (users w)).

Definition users_delete_one (id : Z) : M unit :=
  modify (with_users (delete_one (by_user_id id))).

Definition save_user (id : Z) (adm v : bool) : M unit :=
  if int64 id then
    modify (with_users
      (upsert_one (by_user_id id) (fun _ => mkUser id adm v) (mkUser id adm v)))
  else raise OverflowError.

Definition admin_handler (message : Message) : M unit :=
  if from_user_id message =? admin_id then
    match py_int (args message) with
    | Some id => save_user id true false ;;; message_reply message Done
    | None => raise ValueError
    end
  else message_reply message NoRightsCommand.

Definition vip_handler (message : Message) : M unit :=
  if from_user_id message =? admin_id then
    match py_int (args message) with
    | Some id => save_user id false true ;;; message_reply message Done
    | None => raise ValueError
    end
  else message_reply message NoRightsCommand.

Definition is_admin (id : Z) : M bool :=
  user_data <- users_find_one id ;;
  ret (match user_data with Some u => admin u | None => false end).

Definition is_vip (id : Z) : M bool :=
  user_data <- users_find_one id ;;
  ret (match user_data with Some u => vip u | None => false end).

Definition get_settings (id : Z) : M Settings :=
  found <- gets (fun w => find_one (fun s => settings_user_id s =? id) (settings w)) ;;
  match found with
  | None =>
      let default_settings := mkSettings id false in
      modify (with_settings (insert_one default_settings)) ;;;
      ret default_settings
  | Some s => ret s
  end.

Definition by_cooldown_user (id : Z) (c : Cooldown) : bool := cooldown_user_id c =? id.

Definition cooldown_set (id t : Z) : M unit :=
  modify (with_cooldown
    (upsert_one (by_cooldown_user id)
                (fun c => mkCooldown (cooldown_user_id c) (floor_ms t))
                (mkCooldown id (floor_ms t)))).

Definition cooldown_check (id : Z) : M bool :=
  last_message <- gets (fun w => find_one (by_cooldown_user id) (cooldown w)) ;;
  match last_message with
  | Some last =>
      now <- datetime_now ;;
      if total_seconds_lt (now - sent_at last) 60 then ret false else ret true
  | None => ret true
  end.

Definition update_cooldown (id : Z) : M unit :=
  now <- datetime_now ;;
  cooldown_set id now.


(** *** The ledger *)

Definition save_sent_message (sender sender_message receiver receiver_message
    original_message : Z) : M unit :=
  modify (with_sent_messages
    (insert_one (mkSentMessage sender sender_message receiver receiver_message
                               original_message))).

Definition get_sent_messages (sender sender_message : Z) : M (list SentMessage) :=
  gets (fun w => firstn (Z.to_nat 10000) (find_many
    (fun r => (sender_id r =? sender) && (original_message_id r =? sender_message))
    (sent_messages w))).

Definition get_sent_message_id (sender_message original_message receiver : option Z)
    : M Lookup :=
  if truthy sender_message then
    if truthy receiver then
      sent_message <- gets (fun w => find_one
        (fun r => (sender_message_id r =? val sender_message)
                  && (receiver_id r =? val receiver)) (sent_messages w)) ;;
      match sent_message with
      | Some r => ret (FoundId (receiver_message_id r))
      | None => ret NotFound
      end
    else
      sent_message <- gets (fun w => find_one
        (fun r => sender_message_id r =? val sender_message) (sent_messages w)) ;;
      match sent_message with
      | Some r => ret (FoundDoc r)
      | None => ret NotFound
      end
  else if truthy original_message then
    if truthy receiver then
      sent_message <- gets (fun w => find_one
        (fun r => (receiver_id r =? val receiver)
                  && (original_message_id r =? val original_message))
        (sent_messages w)) ;;
      match sent_message with
      | Some r => ret (FoundId (receiver_message_id r))
      | None => ret NotFound
      end
    else
      sent_message <- gets (fun w => find_one
        (fun r => original_message_id r =? val original_message) (sent_messages w)) ;;
      match sent_message with
      | Some r => ret (FoundDoc r)
      | None => ret NotFound
      end
  else ret NotFound.

Definition delete_sent_messages (sender sender_message : Z) : M unit :=
  modify (with_sent_messages (delete_many
    (fun r => (sender_id r =? sender) && (sender_message_id r =? sender_message)))).

(** *** Fan-out *)

(** The reply target on the side of recipient [receiver], the first part
    of the [try] block of [send_msg]. *)
Definition resolve_reply (message : Message) (receiver : Z) : M Lookup :=
  match reply_to_message message with
  | Some r =>
      if reply_from_is_bot r then
        get_sent_message_id (Some (reply_message_id r)) None (Some receiver)
      else
        get_sent_message_id None (Some (reply_message_id r)) (Some receiver)
  | None => ret NotFound
  end.

Definition send_msg (message : Message) (user : User) (reply_markup : option string)
    : M unit :=
  try_except
    (reply_to_message_id <- resolve_reply message (user_id user) ;;
     sent_message <- bot_copy_message (user_id user) (from_user_id message)
                       (message_id message) reply_markup reply_to_message_id ;;
     save_sent_message (from_user_id message) sent_message (user_id user)
                       sent_message (message_id message))
    (fun e =>
       match e with
       | BotBlocked => users_delete_one (user_id user)
       | UserDeactivated => users_delete_one (user_id user)
       | _ => logging_exception e
       end).

(** The label of the inline button that shows the sender. *)
Definition nickname_button (message : Message) (user : User) : string :=
  let nickname :=
    match from_user_username message with
    | Some (String c s) => String c s
    | _ => ("id" ++ py_str (from_user_id message))%string
    end in
  ((if vip user then "VIP" else "") ++ (if admin user then "ADMIN" else "")
   ++ " " ++ nickname)%string.

Definition sender_markup (message : Message) (user : User) : M (option string) :=
  st <- get_settings (user_id user) ;;
  if show_nickname_inline st then ret (Some (nickname_button message user))
  else ret None.

Definition broadcast_message (message : Message) : M unit :=
  doc <- users_find_one (from_user_id message) ;;
  user <- User_of_doc doc ;;
  reply_markup <- sender_markup message user ;;
  all_users <- gets users ;;
  for_each all_users (fun u => send_msg message u reply_markup) ;;;
  let count := List.length all_users in
  message_reply message (SentToUsers count).

Definition edit_cor (message : Message) (sent_message : SentMessage)
    (reply_markup : option string) : M unit :=
  try_except
    (bot_edit_message_text (receiver_id sent_message) (receiver_message_id sent_message)
       (text message ++ " (edited)")%string reply_markup)
    (fun e =>
       match e with
       | BotBlocked => users_delete_one (receiver_id sent_message)
       | UserDeactivated => users_delete_one (receiver_id sent_message)
       | _ => logging_exception e
       end).

Definition edit_handler (message : Message) : M unit :=
  doc <- users_find_one (from_user_id message) ;;
  user <- User_of_doc doc ;;
  reply_markup <- sender_markup message user ;;
  found <- get_sent_messages (from_user_id message) (message_id message) ;;
  for_each found (fun sent_message => edit_cor message sent_message reply_markup).

(** *** Commands on a replied-to message *)

(** The records a replied-to message resolves to in [delete_handler],
    [ban_handler] and [unban_handler]. *)
Definition replied_records (r : ReplyTo) : M (list SentMessage) :=
  if reply_from_is_bot r then
    gets (fun w => find_many (fun m => sender_message_id m =? reply_message_id r)
                             (sent_messages w))
  else
    gets (fun w => find_many (fun m => original_message_id m =? reply_message_id r)
                             (sent_messages w)).

Definition delete_copy (msg_need : SentMessage) : M unit :=
  try_except
    (bot_delete_message (receiver_id msg_need) (receiver_message_id msg_need))
    (fun e => logging_exception e).

(** The loop over [msgs] of [delete_handler]; [false] when the handler
    returned from inside the loop. *)
Fixpoint delete_loop (message : Message) (msgs : list SentMessage) : M bool :=
  match msgs with
  | [] => ret true
  | msg :: msgs' =>
      adm <- is_admin (from_user_id message) ;;
      if negb adm && negb (from_user_id message =? sender_id msg) then
        message_reply message NoRightsDelete ;;;
        ret false
      else
        msg_check <- gets (fun w => find_many
          (fun m => original_message_id m =? original_message_id msg)
          (sent_messages w)) ;;
        for_each msg_check delete_copy ;;;
        delete_loop message msgs'
  end.

Definition delete_handler (message : Message) : M unit :=
  match reply_to_message message with
  | Some r =>
      msgs <- replied_records r ;;
      completed <- delete_loop message msgs ;;
      if completed then message_reply message DeletedForAll else ret tt
  | None => ret tt
  end.

(** The loop over [msgs] of [ban_handler], threading the local [user_id];
    [None] when the handler returned from inside the loop. *)
Fixpoint ban_loop (message : Message) (msgs : list SentMessage) (uid : Z)
    : M (option Z) :=
  match msgs with
  | [] => ret (Some uid)
  | msg :: msgs' =>
      adm <- is_admin (from_user_id message) ;;
      if negb adm then
        message_reply message NoRightsBan ;;;
        ret None
      else
        let uid := sender_id msg in
        doc <- users_find_one uid ;;
        user <- User_of_doc doc ;;
        (if vip user then save_user uid false false else ret tt) ;;;
        (if admin user then save_user uid false false else ret tt) ;;;
        now <- datetime_now ;;
        cooldown_set uid (now + timedelta_days 365) ;;;
        ban_loop message msgs' uid
  end.

Definition ban_handler (message : Message) : M unit :=
  match reply_to_message message with
  | Some r =>
      msgs <- replied_records r ;;
      res <- ban_loop message msgs 0 ;;
      match res with
      | Some uid =>
          if negb (uid =? 0) then message_reply message (Banned uid)
          else message_reply message SomethingWentWrong
      | None => ret tt
      end
  | None => ret tt
  end.

Fixpoint unban_loop (message : Message) (msgs : list SentMessage) (uid : Z)
    : M (option Z) :=
  match msgs with
  | [] => ret (Some uid)
  | msg :: msgs' =>
      adm <- is_admin (from_user_id message) ;;
      if negb adm then
        message_reply message NoRightsUnban ;;;
        ret None
      else
        let uid := sender_id msg in
        doc <- users_find_one uid ;;
        _ <- User_of_doc doc ;;
        now <- datetime_now ;;
        cooldown_set uid (now - timedelta_seconds 60) ;;;
        unban_loop message msgs' uid
  end.

Definition unban_handler (message : Message) : M unit :=
  match reply_to_message message with
  | Some r =>
      msgs <- replied_records r ;;
      res <- unban_loop message msgs 0 ;;
      match res with
      | Some uid =>
          if negb (uid =? 0) then message_reply message (Unbanned uid)
          else message_reply message SomethingWentWrong
      | None => ret tt
      end
  | None => ret tt
  end.

(** *** New messages *)

Definition text_handler (message : Message) : M unit :=
  let uid := from_user_id message in
  adm <- is_admin uid ;;
  v <- (if adm then ret true else is_vip uid) ;;
  if v then broadcast_message message
  else
    ok <- cooldown_check uid ;;
    if ok then
      update_cooldown uid ;;;
      broadcast_message message
    else message_reply message PleaseWait.

End Bot.

(** ** Worlds and ledgers used to state the properties *)

Definition empty_world : World := mkWorld [] [] [] [] 0 [].

(** The world at another reading of the clock. *)
Definition at_time (t : Z) (w : World) : World :=
  mkWorld (users w) (settings w) (cooldown w) (sent_messages w) t (trace w).

(** One call of [save_sent_message] with the fields of [r] as arguments. *)
Definition save_record (r : SentMessage) : M unit :=
  save_sent_message (sender_id r) (sender_message_id r) (receiver_id r)
                    (receiver_message_id r) (original_message_id r).

(** A sequence of [save_sent_message] calls. *)
Definition save_all (calls : list SentMessage) : M unit := for_each calls save_record.

Definition same_relay (sender original recipient : Z) (r : SentMessage) : bool :=
  (sender_id r =? sender) && (original_message_id r =? original)
  && (receiver_id r =? recipient).

(** The records of the ledger for one (sender, original message, recipient). *)
Definition relay_records (sender original recipient : Z) (w : World) : list SentMessage :=
  find_many (same_relay sender original recipient) (sent_messages w).

Ltac run :=
  unfold bind, ret, gets, modify, raise, try_except in *; simpl in *.

(** ** Fan-out, described

    The world after the task of one recipient, given the reply target
    [lk] that was resolved for it. *)
Definition after_send (tg : Transport) (message : Message) (user : User)
    (reply_markup : option string) (lk : Lookup) (w : World) : World :=
  let w1 := emit (CopyMessage (user_id user) (from_user_id message)
                              (message_id message) reply_markup lk) w in
  match copy_message tg (user_id user) (from_user_id message) (message_id message) lk with
  | inr id =>
      with_sent_messages
        (insert_one (mkSentMessage (from_user_id message) id (user_id user) id
                                   (message_id message))) w1
  | inl BotBlocked => with_users (delete_one (by_user_id (user_id user))) w1
  | inl UserDeactivated => with_users (delete_one (by_user_id (user_id user))) w1
  | inl e => emit (LogException e) w1
  end.

(** Counting in a trace. *)
Definition is_copy (e : Effect) : bool :=
  match e with CopyMessage _ _ _ _ _ => true | _ => false end.

Definition is_reply (e : Effect) : bool :=
  match e with Reply _ _ => true | _ => false end.

(** A copy the transport accepted. *)
Definition delivered (tg : Transport) (e : Effect) : bool :=
  match e with
  | CopyMessage chat from_chat msg _ lk =>
      match copy_message tg chat from_chat msg lk with
      | inr _ => true
      | inl _ => false
      end
  | _ => false
  end.

Definition attempts (t : list Effect) : nat := List.length (List.filter is_copy t).
Definition deliveries (tg : Transport) (t : list Effect) : nat :=
  List.length (List.filter (delivered tg) t).

(** A record as the fan-out of [message] writes it. *)
Definition fanout_record (tg : Transport) (message : Message) (r : SentMessage) : Prop :=
  sender_message_id r = receiver_message_id r
  /\ sender_id r = from_user_id message
  /\ original_message_id r = message_id message
  /\ exists lk, copy_message tg (receiver_id r) (from_user_id message)
                             (message_id message) lk
                = inr (receiver_message_id r).

(** What the tasks of the recipients [l] have done together. *)
Record fanned_out (tg : Transport) (message : Message) (l : list User)
    (w w' : World) : Prop := mkFannedOut {
  fo_trace : exists t, trace w' = trace w ++ t
                       /\ attempts t = List.length l
                       /\ List.filter is_reply t = []
                       /\ exists new, sent_messages w' = sent_messages w ++ new
                                      /\ Forall (fanout_record tg message) new
                                      /\ List.length new = deliveries tg t;
  fo_settings : settings w' = settings w;
  fo_cooldown : cooldown w' = cooldown w;
  fo_clock : clock w' = clock w
}.

(** ** Scenarios

    The scenario of the spec: admin 1 broadcasts message 10 to the
    directory of users 1, 2 and 3; user 2 has blocked the bot and the ledger
    already holds a copy that user 2 received from user 3. *)
Definition scenario_transport : Transport :=
  mkTransport
    (fun chat _ _ _ => if chat =? 2 then inl BotBlocked else inr (100 + chat))
    (fun _ _ => None)
    (fun _ _ => None).

Definition scenario_world : World :=
  mkWorld [mkUser 1 true false; mkUser 2 false false; mkUser 3 false false]
          [] [] [mkSentMessage 3 50 2 50 8] 0 [].

Definition scenario_message : Message := mkMessage 1 None 10 None "" "hello".

(** The ledger of the reply scenario, as the code writes it: user 1
    broadcasts message 10 to the directory of users 1, 2 and 3, and the
    transport numbers the copies 11, 55 and 77. *)
Definition reply_transport : Transport :=
  mkTransport
    (fun chat _ _ _ => if chat =? 2 then inr 55 else if chat =? 3 then inr 77 else inr 11)
    (fun _ _ => None)
    (fun _ _ => None).

Definition reply_world : World :=
  mkWorld [mkUser 1 false false; mkUser 2 false false; mkUser 3 false false]
          [] [] [] 0 [].

Definition after_first_broadcast : World :=
  final (broadcast_message reply_transport (mkMessage 1 None 10 None "" "hello")
                           reply_world).

(** The transport gives the copies of one message for different chats
    different ids. *)
Definition distinct_copy_ids (tg : Transport) : Prop :=
  forall chat1 chat2 from_chat msg lk1 lk2 id1 id2,
    copy_message tg chat1 from_chat msg lk1 = inr id1 ->
    copy_message tg chat2 from_chat msg lk2 = inr id2 ->
    chat1 <> chat2 -> id1 <> id2.

(** The cooldown of [id] is over at the clock of [w]: there is no record,
    or at least 60 seconds have passed since [sent_at]. *)
Definition cooldown_elapsed (id : Z) (w : World) : Prop :=
  match find_one (by_cooldown_user id) (cooldown w) with
  | None => True
  | Some last => timedelta_seconds 60 <= clock w - sent_at last
  end.

(** The world after the body of the loop of [ban_handler] for the sender
    [uid], whose directory document is [user]. *)
Definition after_ban (uid : Z) (user : User) (w : World) : World :=
  let strip := with_users (upsert_one (by_user_id uid) (fun _ => mkUser uid false false)
                                      (mkUser uid false false)) in
  let w1 := if vip user then strip w else w in
  let w2 := if admin user then strip w1 else w1 in
  with_cooldown
    (upsert_one (by_cooldown_user uid)
       (fun c => mkCooldown (cooldown_user_id c)
                            (floor_ms (clock w + timedelta_days 365)))
       (mkCooldown uid (floor_ms (clock w + timedelta_days 365)))) w2.

(** What a ban leaves behind for [u] when it was made at clock [t]. *)
Definition banned (u t : Z) (w : World) : Prop :=
  find_one (by_cooldown_user u) (cooldown w)
  = Some (mkCooldown u (floor_ms (t + timedelta_days 365)))
  /\ is_admin u w = Ret false w
  /\ is_vip u w = Ret false w.

(** Admin 1 bans, by replying to the copy 60 they received, the sender 2 of
    that copy. *)
Definition ban_world : World :=
  mkWorld [mkUser 1 true false; mkUser 2 false true] [] []
          [mkSentMessage 2 60 1 60 20] 0 [].

Definition ban_command : Message :=
  mkMessage 1 None 61 (Some (mkReplyTo 60 true)) "" "/ban".

Definition year_and_minute : Z := timedelta_days 365 + timedelta_seconds 60.

(** The world with more effects in its trace and nothing else changed. *)
Definition add_trace (t : list Effect) (w : World) : World :=
  mkWorld (users w) (settings w) (cooldown w) (sent_messages w) (clock w) (trace w ++ t).

Definition is_delete (e : Effect) : bool :=
  match e with DeleteMessage _ _ => true | _ => false end.

(** User 5, who is no admin, replies [/del] to the copy 70 received from
    user 4. *)
Definition delete_world : World :=
  mkWorld [mkUser 4 false false; mkUser 5 false false] [] []
          [mkSentMessage 4 71 4 71 40; mkSentMessage 4 70 5 70 40] 0 [].

Definition delete_command : Message :=
  mkMessage 5 None 72 (Some (mkReplyTo 70 true)) "" "/del".

(** User 5 replies [/del] to the copy 90 received from user 6; user 7 holds
    a copy, also numbered 90 in their chat, of an earlier broadcast of
    user 5. *)
Definition shared_id_world : World :=
  mkWorld [mkUser 5 false false; mkUser 6 false false; mkUser 7 false false] [] []
          [mkSentMessage 5 90 7 90 80; mkSentMessage 6 90 5 90 81] 0 [].

(** ** The settings command

    The messages of [settings_handler] and [settings_callback_handler]
    carry an inline keyboard; the handlers are given here with the keyboard
    they show as their value, and the transport calls that show it are
    taken to succeed. A key the settings document does not have
    ([KeyError]) is raised as [OtherError]. *)

(** [update_one(filter, {"$set": ..})] without upsert: the first match is
    rewritten by [f]; without a match nothing is written. *)
Fixpoint update_one {A} (p : A -> bool) (f : A -> A) (c : list A) : list A :=
  match c with
  | [] => []
  | x :: c' => if p x then f x :: c' else x :: update_one p f c'
  end.

Definition by_settings_user (id : Z) (s : Settings) : bool := settings_user_id s =? id.

(** [settings[field]]: [None] is [KeyError]. *)
Definition settings_item (s : Settings) (field : string) : option bool :=
  if String.eqb field "show_nickname_inline" then Some (show_nickname_inline s) else None.

(** ["$set": {field: value}] on a settings document. *)
Definition set_field (field : string) (value : bool) (s : Settings) : Settings :=
  if String.eqb field "show_nickname_inline" then mkSettings (settings_user_id s) value
  else s.

Definition update_settings (id : Z) (field : string) (value : bool) : M unit :=
  modify (with_settings (update_one (by_settings_user id) (set_field field value))).

(** [s[n:]] *)
Fixpoint py_slice_from (n : nat) (s : string) : string :=
  match n, s with
  | O, _ => s
  | S n', String _ s' => py_slice_from n' s'
  | S _, EmptyString => EmptyString
  end.

(** The button of the settings keyboard: its text ends in a check mark when
    [checked] and in a cross otherwise. *)
Record InlineButton := mkInlineButton {
  checked : bool;
  callback_data : string
}.

Definition settings_keyboard (s : Settings) : InlineButton :=
  mkInlineButton (show_nickname_inline s) "toggle_show_nickname_inline".

Definition settings_handler (message : Message) : M InlineButton :=
  st <- get_settings (from_user_id message) ;;
  ret (settings_keyboard st).

(** The filter of the callback handler: [query.data in [...]]. *)
Definition settings_callback_filter (data : string) : bool :=
  String.eqb data "toggle_show_nickname_inline".

Definition settings_callback_handler (query_from_user_id : Z) (data : string)
    : M InlineButton :=
  let setting_to_toggle := py_slice_from 7 data in
  st <- get_settings query_from_user_id ;;
  match settings_item st setting_to_toggle with
  | Some current_setting =>
      update_settings query_from_user_id setting_to_toggle (negb current_setting) ;;;
      st' <- get_settings query_from_user_id ;;
      ret (settings_keyboard st')
  | None => raise OtherError
  end.

(** ** Descriptions used by the further properties *)

Definition chat_of (e : Effect) : Z :=
  match e with
  | Reply chat _ => chat
  | CopyMessage chat _ _ _ _ => chat
  | EditMessageText chat _ _ _ => chat
  | DeleteMessage chat _ => chat
  | LogException _ => 0
  end.

Definition is_edit (e : Effect) : bool :=
  match e with EditMessageText _ _ _ _ => true | _ => false end.

Definition markup_of (e : Effect) : option string :=
  match e with
  | CopyMessage _ _ _ mk _ => mk
  | EditMessageText _ _ _ mk => mk
  | _ => None
  end.

(** The transport call that deletes the copy of a record. *)
Definition delete_of (r : SentMessage) : Effect :=
  DeleteMessage (receiver_id r) (receiver_message_id r).

(** The transport call that edits the copy of a record. *)
Definition edit_of (message : Message) (reply_markup : option string) (r : SentMessage)
    : Effect :=
  EditMessageText (receiver_id r) (receiver_message_id r)
                  (text message ++ " (edited)")%string reply_markup.

(** What [edit_cor] does to the outside for the record [r]: the edit, and
    the log of an exception that is not an unreachable recipient. *)
Definition edit_effects (tg : Transport) (message : Message)
    (reply_markup : option string) (r : SentMessage) : list Effect :=
  edit_of message reply_markup r
  :: match edit_message_text tg (receiver_id r) (receiver_message_id r) with
     | None => []
     | Some BotBlocked => []
     | Some UserDeactivated => []
     | Some e => [LogException e]
     end.

(** The records [get_sent_messages] returns: the first 10000 matches. *)
Definition sent_for (sender original : Z) (l : list SentMessage) : list SentMessage :=
  firstn (Z.to_nat 10000)
         (find_many (fun r => (sender_id r =? sender)
                              && (original_message_id r =? original)) l).

(** What an unban leaves behind for [u] when it was made at clock [t]. *)
Definition unbanned (u t : Z) (w : World) : Prop :=
  find_one (by_cooldown_user u) (cooldown w)
  = Some (mkCooldown u (floor_ms (t - timedelta_seconds 60))).

(** * Properties *)

Lemma bind_Ret {A B} (c : M A) (k : A -> M B) (w w' : World) (a : A) :
  c w = Ret a w' -> bind c k w = k a w'.
Proof.
  intros H. unfold bind. rewrite H. reflexivity.
Qed.

Lemma bind_Raise {A B} (c : M A) (k : A -> M B) (w w' : World) (e : Exn) :
  c w = Raise e w' -> bind c k w = Raise e w'.
Proof.
  intros H. unfold bind. rewrite H. reflexivity.
Qed.

Lemma bind_gets {A B} (f : World -> A) (k : A -> M B) (w : World) :
  bind (gets f) k w = k (f w) w.
Proof. reflexivity. Qed.

(** ** The ledger: [save_sent_message] and [get_sent_message_id] *)

Lemma save_record_appends (r : SentMessage) (w : World) :
  save_record r w = Ret tt (with_sent_messages (insert_one r) w).
Proof.
  destruct r; reflexivity.
Qed.

Lemma save_all_spec (calls : list SentMessage) :
  forall w, save_all calls w
            = Ret tt (with_sent_messages (fun l => l ++ calls) w).
Proof.
  induction calls as [|r calls IH]; intros w.
  - unfold save_all; simpl. unfold ret, with_sent_messages.
    rewrite app_nil_r. destruct w; reflexivity.
  - unfold save_all in *. simpl. unfold bind at 1.
    rewrite save_record_appends, IH.
    unfold with_sent_messages, insert_one; simpl.
    rewrite <- app_assoc. reflexivity.
Qed.

(** C1, as amended: [save_sent_message] never fails and never looks for an
    existing record. After any sequence of calls the ledger is the old
    ledger followed by one record per call, so the number of records for a
    (sender, original message, recipient) grows by the number of calls made
    for it. *)
Theorem save_sent_message_appends (calls : list SentMessage) (w : World)
    (sender original recipient : Z) :
  exists w',
    save_all calls w = Ret tt w'
    /\ sent_messages w' = sent_messages w ++ calls
    /\ List.length (relay_records sender original recipient w')
       = (List.length (relay_records sender original recipient w)
          + List.length (List.filter (same_relay sender original recipient) calls))%nat.
Proof.
  eexists. split; [apply save_all_spec|]. split; [reflexivity|].
  unfold relay_records, find_many; simpl.
  rewrite filter_app, length_app. reflexivity.
Qed.

(** C1, as stated, fails: two calls for the same original message and
    recipient leave two records. *)
Lemma record_twice_keeps_both :
  let r := mkSentMessage 1 55 2 55 10 in
  let w' := final (save_all [r; r] empty_world) in
  sent_messages w' = [r; r]
  /\ List.length (relay_records 1 10 2 w') = 2%nat
  /\ ~ (List.length (relay_records 1 10 2 w') <= 1)%nat.
Proof.
  vm_compute. repeat split. lia.
Qed.

Lemma find_none {A} (p : A -> bool) (l : list A) :
  (forall y, In y l -> p y = false) -> find_one p l = None.
Proof.
  unfold find_one.
  induction l as [|y l IH]; intros H; [reflexivity|].
  simpl. rewrite (H y) by (left; reflexivity).
  apply IH. intros z Hz. apply H. right. exact Hz.
Qed.

(** C2: on the ledger the fan-out of message 10 leaves, a reply by the
    sender 1 to that message resolves for recipient 3 to the copy 77 that
    user 3 holds. A reply by user 2 to the copy 55 they received does not:
    [send_msg] looks the id 55 up as a sender message id, which only the
    record of user 2 carries, so the reply target is found for user 2 alone
    and the copies for users 1 and 3 are sent without one. It is the same
    on a ledger whose records carry the sender's own message id 10 as
    sender message id. The delete command does map a copy back to its
    original: user 1, replying to the copy 11, has all three copies
    deleted. *)
Theorem reply_to_received_copy_loses_target :
  let w := after_first_broadcast in
  let own := mkMessage 1 None 12 (Some (mkReplyTo 10 false)) "" "re" in
  let received := mkMessage 2 None 13 (Some (mkReplyTo 55 true)) "" "re" in
  let relayed := trace (final (broadcast_message reply_transport received w)) in
  let stated := with_sent_messages
                  (fun _ => [mkSentMessage 1 10 2 55 10; mkSentMessage 1 10 3 77 10])
                  reply_world in
  sent_messages w = [mkSentMessage 1 11 1 11 10; mkSentMessage 1 55 2 55 10;
                     mkSentMessage 1 77 3 77 10]
  /\ resolve_reply own 3 w = Ret (FoundId 77) w
  /\ resolve_reply received 3 w = Ret NotFound w
  /\ resolve_reply received 1 w = Ret NotFound w
  /\ resolve_reply received 2 w = Ret (FoundId 55) w
  /\ In (CopyMessage 3 2 13 None NotFound) relayed
  /\ In (CopyMessage 1 2 13 None NotFound) relayed
  /\ In (CopyMessage 2 2 13 None (FoundId 55)) relayed
  /\ resolve_reply own 3 stated = Ret (FoundId 77) stated
  /\ resolve_reply received 3 stated = Ret NotFound stated
  /\ List.filter is_delete
       (trace (final (delete_handler reply_transport
                        (mkMessage 1 None 14 (Some (mkReplyTo 11 true)) "" "/del") w)))
     = [DeleteMessage 1 11; DeleteMessage 2 55; DeleteMessage 3 77].
Proof.
  vm_compute. repeat split; auto 10.
Qed.

(** ** Fan-out: what one [send_msg] does *)

Lemma get_sent_message_id_reads (a b c : option Z) (w : World) :
  exists lk, get_sent_message_id a b c w = Ret lk w.
Proof.
  unfold get_sent_message_id.
  destruct (truthy a), (truthy b), (truthy c); run;
    try (match goal with |- context [find_one ?p ?l] => destruct (find_one p l) end);
    eauto.
Qed.

Lemma resolve_reply_reads (message : Message) (receiver : Z) (w : World) :
  exists lk, resolve_reply message receiver w = Ret lk w.
Proof.
  unfold resolve_reply.
  destruct (reply_to_message message) as [r|]; [|run; eauto].
  destruct (reply_from_is_bot r); apply get_sent_message_id_reads.
Qed.

Lemma send_msg_spec (tg : Transport) (message : Message) (user : User)
    (reply_markup : option string) (w : World) :
  exists lk,
    resolve_reply message (user_id user) w = Ret lk w
    /\ send_msg tg message user reply_markup w
       = Ret tt (after_send tg message user reply_markup lk w).
Proof.
  destruct (resolve_reply_reads message (user_id user) w) as [lk Hlk].
  exists lk. split; [assumption|].
  unfold send_msg, after_send, try_except, bind at 1.
  rewrite Hlk. unfold bot_copy_message. run.
  destruct (copy_message tg _ _ _ lk) as [e|id]; [destruct e|]; reflexivity.
Qed.

Lemma fanned_out_failed (tg : Transport) (message : Message) (user : User)
    (c : Effect) (w w' : World) (extra : list Effect) :
  is_copy c = true -> is_reply c = false -> delivered tg c = false ->
  List.filter is_copy extra = [] -> List.filter is_reply extra = [] ->
  List.filter (delivered tg) extra = [] ->
  trace w' = trace w ++ c :: extra ->
  sent_messages w' = sent_messages w -> settings w' = settings w ->
  cooldown w' = cooldown w -> clock w' = clock w ->
  fanned_out tg message [user] w w'.
Proof.
  intros Hc Hr Hd Hec Her Hed Ht Hm Hs Hcd Hk.
  split; try assumption.
  exists (c :: extra). unfold attempts, deliveries. simpl.
  rewrite Hc, Hr, Hd, Hec, Her, Hed. repeat split; try assumption.
  exists []. rewrite app_nil_r. repeat split; [assumption | constructor].
Qed.

Lemma after_send_fanned_out (tg : Transport) (message : Message) (user : User)
    (reply_markup : option string) (lk : Lookup) (w : World) :
  fanned_out tg message [user] w (after_send tg message user reply_markup lk w).
Proof.
  unfold after_send.
  set (c := CopyMessage _ _ _ _ _).
  destruct (copy_message tg (user_id user) (from_user_id message) (message_id message) lk)
    as [e|id] eqn:E.
  - assert (Hd : delivered tg c = false) by (unfold c; simpl; rewrite E; reflexivity).
    destruct e.
    + apply fanned_out_failed with (c := c) (extra := [LogException TypeError]);
        try reflexivity; try assumption.
      simpl. rewrite <- app_assoc. reflexivity.
    + apply fanned_out_failed with (c := c) (extra := [LogException ValueError]);
        try reflexivity; try assumption.
      simpl. rewrite <- app_assoc. reflexivity.
    + apply fanned_out_failed with (c := c) (extra := [LogException OverflowError]);
        try reflexivity; try assumption.
      simpl. rewrite <- app_assoc. reflexivity.
    + apply fanned_out_failed with (c := c) (extra := []);
        try reflexivity; try assumption.
    + apply fanned_out_failed with (c := c) (extra := []);
        try reflexivity; try assumption.
    + apply fanned_out_failed with (c := c) (extra := [LogException OtherError]);
        try reflexivity; try assumption.
      simpl. rewrite <- app_assoc. reflexivity.
  - assert (Hd : delivered tg c = true) by (unfold c; simpl; rewrite E; reflexivity).
    split; try reflexivity.
    exists [c]. unfold attempts, deliveries.
    cbn [List.filter is_copy is_reply]. rewrite Hd. unfold c at 1 2.
    cbn [List.filter is_copy is_reply List.length].
    repeat split.
    exists [mkSentMessage (from_user_id message) id (user_id user) id (message_id message)].
    repeat split.
    constructor; [|constructor].
    repeat split. exists lk. exact E.
Qed.

Lemma fanned_out_nil (tg : Transport) (message : Message) (w : World) :
  fanned_out tg message [] w w.
Proof.
  split; try reflexivity.
  exists []. rewrite app_nil_r. repeat split.
  exists []. rewrite app_nil_r. repeat split. constructor.
Qed.

Lemma fanned_out_cons (tg : Transport) (message : Message) (u : User) (l : list User)
    (w w1 w2 : World) :
  fanned_out tg message [u] w w1 -> fanned_out tg message l w1 w2 ->
  fanned_out tg message (u :: l) w w2.
Proof.
  intros [(t1 & Ht1 & Ha1 & Hr1 & new1 & Hn1 & Hf1 & Hl1) Hs1 Hc1 Hk1]
         [(t2 & Ht2 & Ha2 & Hr2 & new2 & Hn2 & Hf2 & Hl2) Hs2 Hc2 Hk2].
  split; try congruence.
  exists (t1 ++ t2). unfold attempts, deliveries in *.
  rewrite !filter_app, !length_app, Ha1, Ha2, Hr1, Hr2.
  repeat split.
  - rewrite Ht2, Ht1, app_assoc. reflexivity.
  - exists (new1 ++ new2). rewrite length_app, Hl1, Hl2. repeat split.
    + rewrite Hn2, Hn1, app_assoc. reflexivity.
    + apply Forall_app. split; assumption.
Qed.

Lemma fan_out_spec (tg : Transport) (message : Message) (reply_markup : option string)
    (l : list User) :
  forall w, exists w',
    for_each l (fun u => send_msg tg message u reply_markup) w = Ret tt w'
    /\ fanned_out tg message l w w'.
Proof.
  induction l as [|u l IH]; intros w.
  - exists w. split; [reflexivity | apply fanned_out_nil].
  - destruct (send_msg_spec tg message u reply_markup w) as (lk & _ & Hs).
    destruct (IH (after_send tg message u reply_markup lk w)) as (w' & Hrun & Hfo).
    exists w'. split.
    + simpl. unfold bind at 1. rewrite Hs. exact Hrun.
    + eapply fanned_out_cons; [apply after_send_fanned_out | exact Hfo].
Qed.

(** ** [broadcast_message] *)

Lemma sender_markup_spec (message : Message) (user : User) (w : World) :
  exists mk w1,
    sender_markup message user w = Ret mk w1
    /\ users w1 = users w /\ cooldown w1 = cooldown w
    /\ sent_messages w1 = sent_messages w /\ clock w1 = clock w
    /\ trace w1 = trace w.
Proof.
  unfold sender_markup, get_settings. run.
  destruct (find_one _ (settings w)) as [s|]; simpl;
    [destruct (show_nickname_inline s)|];
    eexists; eexists; split; try reflexivity; repeat split.
Qed.

Lemma broadcast_message_spec (tg : Transport) (message : Message) (user : User)
    (w : World) :
  find_one (by_user_id (from_user_id message)) (users w) = Some user ->
  exists mk w1 w2,
    sender_markup message user w = Ret mk w1
    /\ fanned_out tg message (users w) w1 w2
    /\ broadcast_message tg message w
       = Ret tt (emit (Reply (from_user_id message)
                             (SentToUsers (List.length (users w)))) w2).
Proof.
  intros Hu.
  destruct (sender_markup_spec message user w) as (mk & w1 & Hmk & Husers & Hrest).
  destruct (fan_out_spec tg message mk (users w) w1) as (w2 & Hrun & Hfo).
  exists mk, w1, w2. split; [assumption|]. split; [assumption|].
  unfold broadcast_message.
  rewrite (bind_Ret _ _ w w (Some user))
    by (unfold users_find_one, gets; rewrite Hu; reflexivity).
  rewrite (bind_Ret _ _ w w user) by reflexivity.
  rewrite (bind_Ret _ _ w w1 mk) by assumption.
  rewrite (bind_Ret _ _ w1 w1 (users w))
    by (unfold gets; rewrite Husers; reflexivity).
  rewrite (bind_Ret _ _ w1 w2 tt) by assumption.
  reflexivity.
Qed.

Lemma broadcast_message_unregistered (tg : Transport) (message : Message) (w : World) :
  find_one (by_user_id (from_user_id message)) (users w) = None ->
  broadcast_message tg message w = Raise TypeError w.
Proof.
  intros Hu. unfold broadcast_message.
  rewrite (bind_Ret _ _ w w None)
    by (unfold users_find_one, gets; rewrite Hu; reflexivity).
  reflexivity.
Qed.

(** C3, as amended: when the sender is in the directory, the broadcast
    returns and its last effect is the confirmation, which reports the number
    of directory entries the fan-out was started for; that is the number of
    copies attempted, whatever the transport answered, and nothing else is
    sent to the sender. *)
Theorem confirmation_reports_attempts (tg : Transport) (message : Message)
    (user : User) (w : World) :
  find_one (by_user_id (from_user_id message)) (users w) = Some user ->
  exists w' t,
    broadcast_message tg message w = Ret tt w'
    /\ trace w' = trace w ++ t ++ [Reply (from_user_id message)
                                         (SentToUsers (List.length (users w)))]
    /\ attempts t = List.length (users w)
    /\ List.filter is_reply t = []
    /\ List.length (sent_messages w') = (List.length (sent_messages w) + deliveries tg t)%nat.
Proof.
  intros Hu.
  destruct (broadcast_message_spec tg message user w Hu)
    as (mk & w1 & w2 & Hmk & Hfo & Hrun).
  destruct (sender_markup_spec message user w)
    as (mk' & w1' & Hmk' & _ & _ & Hsm & _ & Htr).
  rewrite Hmk in Hmk'. injection Hmk' as <- <-.
  destruct Hfo as [(t & Ht & Ha & Hr & new & Hn & _ & Hl) _ _ _].
  eexists. exists t. split; [exact Hrun|]. simpl.
  rewrite Ht, Htr, Hn, Hsm, length_app, Hl, <- app_assoc.
  repeat split; assumption.
Qed.

Lemma confirmation_reports_attempts_witness :
  exists w' t,
    broadcast_message scenario_transport scenario_message scenario_world = Ret tt w'
    /\ trace w' = trace scenario_world ++ t ++ [Reply 1 (SentToUsers 3)]
    /\ attempts t = 3%nat
    /\ List.filter is_reply t = []
    /\ List.length (sent_messages w') = (1 + deliveries scenario_transport t)%nat.
Proof.
  apply (confirmation_reports_attempts scenario_transport scenario_message
           (mkUser 1 true false) scenario_world).
  reflexivity.
Defined.

(** C3, as stated, fails: with user 2 unreachable only two of the three
    copies are delivered, and the confirmation reports 3. *)
Lemma confirmation_counts_unreachable_recipient :
  let w' := final (text_handler scenario_transport scenario_message scenario_world) in
  trace w' = [CopyMessage 1 1 10 None NotFound;
              CopyMessage 2 1 10 None NotFound;
              CopyMessage 3 1 10 None NotFound;
              Reply 1 (SentToUsers 3)]
  /\ deliveries scenario_transport (trace w') = 2%nat
  /\ sent_messages w' = [mkSentMessage 3 50 2 50 8;
                         mkSentMessage 1 101 1 101 10;
                         mkSentMessage 1 103 3 103 10].
Proof.
  vm_compute. repeat split.
Qed.

(** ** An unreachable recipient *)

Lemma find_one_none_not_in (id : Z) (l : list User) :
  ~ In id (map user_id l) -> find_one (by_user_id id) l = None.
Proof.
  unfold find_one, by_user_id.
  induction l as [|x l IH]; intros Hnin; [reflexivity|].
  simpl in *. destruct (user_id x =? id) eqn:E.
  - apply Z.eqb_eq in E. tauto.
  - apply IH. tauto.
Qed.

Lemma delete_one_removes (id : Z) (l : list User) :
  NoDup (map user_id l) ->
  find_one (by_user_id id) (delete_one (by_user_id id) l) = None.
Proof.
  induction l as [|x l IH]; intros Hnd; [reflexivity|].
  simpl in *. inversion Hnd as [|? ? Hx Hl]; subst.
  unfold by_user_id at 2. destruct (user_id x =? id) eqn:E.
  - apply Z.eqb_eq in E. subst. apply find_one_none_not_in. assumption.
  - unfold find_one. simpl. unfold by_user_id at 1. rewrite E. apply IH. assumption.
Qed.

(** C4, as amended: when the transport answers the copy for a recipient
    with [BotBlocked] or [UserDeactivated], [send_msg] returns, the
    recipient's document is deleted from the directory, the ledger is left
    as it was, and the only effect is the attempted copy: nothing is sent to
    the sender and nothing is logged. *)
Theorem unreachable_recipient_pruned (tg : Transport) (message : Message) (user : User)
    (reply_markup : option string) (lk : Lookup) (e : Exn) (w : World) :
  resolve_reply message (user_id user) w = Ret lk w ->
  copy_message tg (user_id user) (from_user_id message) (message_id message) lk = inl e ->
  e = BotBlocked \/ e = UserDeactivated ->
  exists w',
    send_msg tg message user reply_markup w = Ret tt w'
    /\ users w' = delete_one (by_user_id (user_id user)) (users w)
    /\ (NoDup (map user_id (users w)) ->
        find_one (by_user_id (user_id user)) (users w') = None)
    /\ sent_messages w' = sent_messages w
    /\ trace w' = trace w ++ [CopyMessage (user_id user) (from_user_id message)
                                          (message_id message) reply_markup lk].
Proof.
  intros Hlk Hcopy He.
  destruct (send_msg_spec tg message user reply_markup w) as (lk' & Hlk' & Hs).
  rewrite Hlk in Hlk'. injection Hlk' as <-.
  eexists. split; [exact Hs|].
  unfold after_send. rewrite Hcopy.
  destruct He as [-> | ->]; simpl; repeat split; apply delete_one_removes.
Qed.

Lemma unreachable_recipient_pruned_witness :
  exists w',
    send_msg scenario_transport scenario_message (mkUser 2 false false) None scenario_world
    = Ret tt w'
    /\ users w' = delete_one (by_user_id 2) (users scenario_world)
    /\ (NoDup (map user_id (users scenario_world)) ->
        find_one (by_user_id 2) (users w') = None)
    /\ sent_messages w' = sent_messages scenario_world
    /\ trace w' = trace scenario_world ++ [CopyMessage 2 1 10 None NotFound].
Proof.
  apply (unreachable_recipient_pruned scenario_transport scenario_message
           (mkUser 2 false false) None NotFound BotBlocked scenario_world).
  - reflexivity.
  - reflexivity.
  - left. reflexivity.
Defined.

(** C4, as stated, fails: after the broadcast in which user 2 proved
    unreachable, user 2 is gone from the directory and the record of the
    copy user 2 received earlier is still in the ledger. *)
Lemma unreachable_recipient_keeps_records :
  let w' := final (text_handler scenario_transport scenario_message scenario_world) in
  users w' = [mkUser 1 true false; mkUser 3 false false]
  /\ In (mkSentMessage 3 50 2 50 8) (sent_messages w')
  /\ List.filter (fun r => receiver_id r =? 2) (sent_messages w')
     = [mkSentMessage 3 50 2 50 8].
Proof.
  vm_compute. repeat split. left. reflexivity.
Qed.

(** ** The records a fan-out writes *)

Lemma after_send_records (tg : Transport) (message : Message) (user : User)
    (mk : option string) (lk : Lookup) (w : World) :
  exists new,
    sent_messages (after_send tg message user mk lk w) = sent_messages w ++ new
    /\ Forall (fanout_record tg message) new
    /\ (forall r, In r new -> receiver_id r = user_id user)
    /\ (List.length new <= 1)%nat
    /\ (forall id,
          copy_message tg (user_id user) (from_user_id message) (message_id message) lk
          = inr id ->
          new <> []).
Proof.
  unfold after_send.
  destruct (copy_message tg (user_id user) (from_user_id message) (message_id message) lk)
    as [e|id] eqn:E; [destruct e|].
  all: try (exists []; cbn [sent_messages emit with_users];
            rewrite app_nil_r; repeat split;
            [constructor | contradiction | simpl; lia | discriminate]).
  exists [mkSentMessage (from_user_id message) id (user_id user) id (message_id message)].
  split; [reflexivity|]. split; [|split; [|split]].
  - constructor; [|constructor]. repeat split. exists lk. exact E.
  - intros r [<-|[]]. reflexivity.
  - simpl. lia.
  - intros _ _. discriminate.
Qed.

Lemma fan_out_records (tg : Transport) (message : Message) (mk : option string)
    (l : list User) :
  forall w, exists w' new,
    for_each l (fun u => send_msg tg message u mk) w = Ret tt w'
    /\ sent_messages w' = sent_messages w ++ new
    /\ Forall (fanout_record tg message) new
    /\ (forall r, In r new -> In (receiver_id r) (map user_id l))
    /\ (NoDup (map user_id l) -> NoDup (map receiver_id new))
    /\ (forall u, In u l ->
          (forall lk, exists id,
             copy_message tg (user_id u) (from_user_id message) (message_id message) lk
             = inr id) ->
          exists r, In r new /\ receiver_id r = user_id u).
Proof.
  induction l as [|u l IH]; intros w.
  - exists w, []. rewrite app_nil_r.
    split; [reflexivity|]. split; [reflexivity|]. split; [constructor|].
    split; [contradiction|]. split; [constructor|]. contradiction.
  - destruct (send_msg_spec tg message u mk w) as (lk & _ & Hs).
    destruct (after_send_records tg message u mk lk w)
      as (n1 & Hn1 & Hf1 & Hr1 & Hl1 & Hc1).
    destruct (IH (after_send tg message u mk lk w))
      as (w' & n2 & Hrun & Hn2 & Hf2 & Hr2 & Hd2 & Hc2).
    exists w', (n1 ++ n2). cbn [for_each].
    rewrite (bind_Ret _ _ w _ tt Hs).
    split; [exact Hrun|]. split; [rewrite Hn2, Hn1, app_assoc; reflexivity|].
    split; [apply Forall_app; split; assumption|].
    split; [|split].
    + intros r Hin. apply in_app_or in Hin. destruct Hin as [Hin|Hin].
      * left. symmetry. apply Hr1. exact Hin.
      * right. apply Hr2. exact Hin.
    + intros Hnd. cbn [map] in Hnd. inversion Hnd as [|? ? Hu Hl]; subst.
      specialize (Hd2 Hl).
      destruct n1 as [|r1 [|r1' n1]]; [exact Hd2 | | simpl in Hl1; lia].
      cbn [app map]. constructor; [|exact Hd2].
      intros Hin. apply Hu. rewrite <- (Hr1 r1) by (left; reflexivity).
      apply in_map_iff in Hin. destruct Hin as (r & Hr & Hin).
      rewrite <- Hr. apply Hr2. exact Hin.
    + intros u' [<-|Hin] Hacc.
      * destruct (Hacc lk) as (id & Hid).
        destruct n1 as [|r1 n1]; [exfalso; exact (Hc1 id Hid eq_refl)|].
        exists r1. split; [left; reflexivity|].
        apply Hr1. left. reflexivity.
      * destruct (Hc2 u' Hin Hacc) as (r & Hr & Hru).
        exists r. split; [apply in_or_app; right; exact Hr | exact Hru].
Qed.

Lemma NoDup_map_by {A B C} (f : A -> B) (g : A -> C) (l : list A) :
  (forall x y, In x l -> In y l -> f x <> f y -> g x <> g y) ->
  NoDup (map f l) -> NoDup (map g l).
Proof.
  induction l as [|x l IH]; intros Hfg Hnd; [constructor|].
  cbn [map] in *. inversion Hnd as [|? ? Hx Hl]; subst. constructor.
  - intros Hin. apply in_map_iff in Hin. destruct Hin as (y & Hy & Hin).
    apply (Hfg x y); [left; reflexivity | right; exact Hin | | congruence].
    intros Hf. apply Hx. rewrite Hf. apply in_map. exact Hin.
  - apply IH; [|exact Hl]. intros a b Ha Hb. apply Hfg; right; assumption.
Qed.

(** C10: the records that a broadcast adds to the ledger each hold the id
    of the copy the transport made for the recipient in both
    [sender_message_id] and [receiver_message_id]; they agree on
    [sender_id] and [original_message_id], and two of them have the same
    [sender_message_id] only when their recipient copies have the same id.
    When the transport numbers the copies for different chats differently
    and the user ids of the directory are unique, no two records of the
    broadcast share a [sender_message_id]. There is such a record for
    every directory entry whose copy the transport accepts, when the sender
    is in the directory. *)
Theorem fanout_records_store_copy_id (tg : Transport) (message : Message) (w : World) :
  exists new,
    sent_messages (final (broadcast_message tg message w)) = sent_messages w ++ new
    /\ Forall (fanout_record tg message) new
    /\ (forall r1 r2, In r1 new -> In r2 new ->
          sender_id r1 = sender_id r2
          /\ original_message_id r1 = original_message_id r2
          /\ (sender_message_id r1 = sender_message_id r2
              <-> receiver_message_id r1 = receiver_message_id r2))
    /\ (distinct_copy_ids tg -> NoDup (map user_id (users w)) ->
        NoDup (map sender_message_id new))
    /\ (forall sender u,
          find_one (by_user_id (from_user_id message)) (users w) = Some sender ->
          In u (users w) ->
          (forall lk, exists id,
             copy_message tg (user_id u) (from_user_id message) (message_id message) lk
             = inr id) ->
          exists r, In r new /\ receiver_id r = user_id u).
Proof.
  assert (Hshare : forall new, Forall (fanout_record tg message) new ->
            forall r1 r2, In r1 new -> In r2 new ->
              sender_id r1 = sender_id r2
              /\ original_message_id r1 = original_message_id r2
              /\ (sender_message_id r1 = sender_message_id r2
                  <-> receiver_message_id r1 = receiver_message_id r2)).
  { intros new Hf r1 r2 H1 H2. rewrite Forall_forall in Hf.
    destruct (Hf r1 H1) as (E1 & S1 & O1 & _).
    destruct (Hf r2 H2) as (E2 & S2 & O2 & _).
    rewrite E1, E2. repeat split; congruence. }
  destruct (find_one (by_user_id (from_user_id message)) (users w)) as [user|] eqn:Hu.
  - destruct (sender_markup_spec message user w)
      as (mk & w1 & Hmk & Hus & _ & Hsm & _ & _).
    destruct (fan_out_records tg message mk (users w) w1)
      as (w2 & new & Hrun & Hn & Hf & Hr & Hd & Hc).
    assert (Hb : broadcast_message tg message w
                 = Ret tt (emit (Reply (from_user_id message)
                                       (SentToUsers (List.length (users w)))) w2)).
    { unfold broadcast_message.
      rewrite (bind_Ret _ _ w w (Some user))
        by (unfold users_find_one, gets; rewrite Hu; reflexivity).
      rewrite (bind_Ret _ _ w w user) by reflexivity.
      rewrite (bind_Ret _ _ w w1 mk) by assumption.
      rewrite (bind_Ret _ _ w1 w1 (users w))
        by (unfold gets; rewrite Hus; reflexivity).
      rewrite (bind_Ret _ _ w1 w2 tt) by assumption.
      reflexivity. }
    exists new. rewrite Hb. cbn [final sent_messages emit]. rewrite Hn, Hsm.
    split; [reflexivity|]. split; [exact Hf|]. split; [apply Hshare; exact Hf|].
    split.
    + intros Hdist Hnd.
      apply NoDup_map_by with (f := receiver_id); [|apply Hd; exact Hnd].
      intros x y Hx Hy Hxy. rewrite Forall_forall in Hf.
      destruct (Hf x Hx) as (Ex & _ & _ & lkx & Cx).
      destruct (Hf y Hy) as (Ey & _ & _ & lky & Cy).
      rewrite Ex, Ey. exact (Hdist _ _ _ _ _ _ _ _ Cx Cy Hxy).
    + intros _ u _ Hin Hacc. exact (Hc u Hin Hacc).
  - rewrite (broadcast_message_unregistered tg message w Hu). simpl.
    exists []. rewrite app_nil_r.
    split; [reflexivity|]. split; [constructor|]. split; [intros r1 r2 []|].
    split; [intros; constructor|].
    intros sender u Hs. discriminate.
Qed.

Lemma scenario_transport_distinct : distinct_copy_ids scenario_transport.
Proof.
  unfold distinct_copy_ids, scenario_transport. cbn [copy_message].
  intros chat1 chat2 f m l1 l2 id1 id2 H1 H2 Hne.
  destruct (chat1 =? 2); [discriminate|]. destruct (chat2 =? 2); [discriminate|].
  assert (E1 : 100 + chat1 = id1) by congruence.
  assert (E2 : 100 + chat2 = id2) by congruence.
  lia.
Qed.

Lemma fanout_records_store_copy_id_witness :
  exists new,
    sent_messages (final (broadcast_message scenario_transport scenario_message
                                            scenario_world))
    = sent_messages scenario_world ++ new
    /\ Forall (fanout_record scenario_transport scenario_message) new
    /\ NoDup (map sender_message_id new)
    /\ exists r, In r new /\ receiver_id r = 3.
Proof.
  destruct (fanout_records_store_copy_id scenario_transport scenario_message
              scenario_world) as (new & Hn & Hf & _ & Hd & Hc).
  exists new. split; [exact Hn|]. split; [exact Hf|]. split.
  - apply Hd.
    + exact scenario_transport_distinct.
    + simpl. repeat constructor; simpl; intuition lia.
  - apply (Hc (mkUser 1 true false) (mkUser 3 false false)).
    + reflexivity.
    + simpl. auto.
    + intros lk. exists 103. reflexivity.
Defined.

(** In the scenario the two records written have sender message ids 101
    and 103, the ids of the copies made for users 1 and 3. *)
Example fanout_records_of_scenario :
  sent_messages (final (broadcast_message scenario_transport scenario_message
                                          scenario_world))
  = sent_messages scenario_world
    ++ [mkSentMessage 1 101 1 101 10; mkSentMessage 1 103 3 103 10].
Proof.
  reflexivity.
Qed.

(** ** Admission *)

Lemma find_one_upsert_one {A} (p : A -> bool) (f : A -> A) (d : A) (c : list A) :
  p d = true -> (forall x, p x = true -> p (f x) = true) ->
  find_one p (upsert_one p f d c)
  = Some (match find_one p c with Some x => f x | None => d end).
Proof.
  intros Hd Hf. unfold find_one.
  induction c as [|x c IH]; simpl.
  - rewrite Hd. reflexivity.
  - destruct (p x) eqn:E; simpl.
    + rewrite (Hf x E). reflexivity.
    + rewrite E. exact IH.
Qed.

Lemma find_one_holds {A} (p : A -> bool) (c : list A) (x : A) :
  find_one p c = Some x -> p x = true.
Proof.
  unfold find_one. intros H. apply find_some in H. tauto.
Qed.

Lemma is_admin_reads (id : Z) (w : World) :
  is_admin id w
  = Ret (match find_one (by_user_id id) (users w) with
         | Some u => admin u
         | None => false
         end) w.
Proof. reflexivity. Qed.

Lemma is_vip_reads (id : Z) (w : World) :
  is_vip id w
  = Ret (match find_one (by_user_id id) (users w) with
         | Some u => vip u
         | None => false
         end) w.
Proof. reflexivity. Qed.

Lemma cooldown_check_spec (id : Z) (w : World) :
  (cooldown_elapsed id w /\ cooldown_check id w = Ret true w)
  \/ (~ cooldown_elapsed id w /\ cooldown_check id w = Ret false w).
Proof.
  unfold cooldown_elapsed, cooldown_check, datetime_now, total_seconds_lt,
    timedelta_seconds. run.
  destruct (find_one (by_cooldown_user id) (cooldown w)) as [last|]; simpl.
  - match goal with |- context [?a <? ?b] => destruct (a <? b) eqn:E end.
    + right. apply Z.ltb_lt in E. split; [lia | reflexivity].
    + left. apply Z.ltb_ge in E. split; [lia | reflexivity].
  - left. split; [exact I | reflexivity].
Qed.

Lemma floor_ms_bounds (t : Z) : floor_ms t <= t < floor_ms t + 1000.
Proof.
  unfold floor_ms.
  pose proof (Z.div_mod t 1000 ltac:(lia)) as Hd.
  pose proof (Z.mod_pos_bound t 1000 ltac:(lia)) as Hm.
  lia.
Qed.

Lemma cooldown_set_spec (id t : Z) (w : World) :
  exists w1,
    cooldown_set id t w = Ret tt w1
    /\ find_one (by_cooldown_user id) (cooldown w1) = Some (mkCooldown id (floor_ms t))
    /\ users w1 = users w /\ settings w1 = settings w
    /\ sent_messages w1 = sent_messages w /\ clock w1 = clock w
    /\ trace w1 = trace w.
Proof.
  eexists. split; [reflexivity|]. simpl. split; [|repeat split].
  rewrite find_one_upsert_one.
  - destruct (find_one (by_cooldown_user id) (cooldown w)) as [c|] eqn:E;
      [|reflexivity].
    apply find_one_holds in E. unfold by_cooldown_user in E.
    apply Z.eqb_eq in E. rewrite E. reflexivity.
  - unfold by_cooldown_user. simpl. apply Z.eqb_refl.
  - intros x Hx. exact Hx.
Qed.

Lemma text_handler_non_privileged (tg : Transport) (message : Message) (w : World) :
  is_admin (from_user_id message) w = Ret false w ->
  is_vip (from_user_id message) w = Ret false w ->
  text_handler tg message w
  = bind (cooldown_check (from_user_id message))
      (fun ok => if ok then bind (update_cooldown (from_user_id message))
                              (fun _ => broadcast_message tg message)
                 else message_reply message PleaseWait) w.
Proof.
  intros Hadm Hvip. unfold text_handler.
  rewrite (bind_Ret _ _ w w false) by assumption.
  rewrite (bind_Ret _ _ w w false) by assumption.
  reflexivity.
Qed.

(** C6, as amended: for a user who is neither admin nor VIP,
    [cooldown_check] answers [True] exactly when the user has no cooldown
    record or at least 60 seconds have passed since [sent_at]; in that case
    [text_handler] first writes the clock, rounded down to whole
    milliseconds as the store keeps it, into the user's cooldown record and
    then runs the broadcast on the world so updated; otherwise it only
    replies that the user has to wait. *)
Theorem admission_non_privileged (tg : Transport) (message : Message) (w : World) :
  let uid := from_user_id message in
  is_admin uid w = Ret false w ->
  is_vip uid w = Ret false w ->
  (cooldown_check uid w = Ret true w <-> cooldown_elapsed uid w)
  /\ (cooldown_elapsed uid w ->
      exists w1,
        update_cooldown uid w = Ret tt w1
        /\ find_one (by_cooldown_user uid) (cooldown w1)
           = Some (mkCooldown uid (floor_ms (clock w)))
        /\ floor_ms (clock w) <= clock w < floor_ms (clock w) + 1000
        /\ users w1 = users w /\ sent_messages w1 = sent_messages w
        /\ trace w1 = trace w
        /\ text_handler tg message w = broadcast_message tg message w1)
  /\ (~ cooldown_elapsed uid w ->
      text_handler tg message w = Ret tt (emit (Reply uid PleaseWait) w)).
Proof.
  intros uid Hadm Hvip.
  pose proof (text_handler_non_privileged tg message w Hadm Hvip) as Hth.
  fold uid in Hth.
  destruct (cooldown_check_spec uid w) as [[He Hc] | [He Hc]].
  - split; [tauto|]. split; [|tauto].
    intros _.
    destruct (cooldown_set_spec uid (clock w) w)
      as (w1 & Hset & Hfind & Hu & _ & Hm & _ & Ht).
    exists w1. split; [exact Hset|]. split; [exact Hfind|].
    split; [apply floor_ms_bounds|].
    repeat split; try assumption.
    rewrite Hth, (bind_Ret _ _ w w true) by assumption.
    rewrite (bind_Ret _ _ w w1 tt) by exact Hset.
    reflexivity.
  - split; [|split].
    + split; [intros H; rewrite Hc in H; discriminate | tauto].
    + tauto.
    + intros _. rewrite Hth, (bind_Ret _ _ w w false) by assumption.
      reflexivity.
Qed.

Lemma admission_non_privileged_witness :
  let w := mkWorld [mkUser 7 false false] [] [mkCooldown 7 1000] [] 60001999 [] in
  let message := mkMessage 7 None 10 None "" "hello" in
  (cooldown_check 7 w = Ret true w <-> cooldown_elapsed 7 w)
  /\ (cooldown_elapsed 7 w ->
      exists w1,
        update_cooldown 7 w = Ret tt w1
        /\ find_one (by_cooldown_user 7) (cooldown w1)
           = Some (mkCooldown 7 (floor_ms (clock w)))
        /\ floor_ms (clock w) <= clock w < floor_ms (clock w) + 1000
        /\ users w1 = users w /\ sent_messages w1 = sent_messages w
        /\ trace w1 = trace w
        /\ text_handler scenario_transport message w
           = broadcast_message scenario_transport message w1)
  /\ (~ cooldown_elapsed 7 w ->
      text_handler scenario_transport message w = Ret tt (emit (Reply 7 PleaseWait) w)).
Proof.
  apply (admission_non_privileged scenario_transport
           (mkMessage 7 None 10 None "" "hello")
           (mkWorld [mkUser 7 false false] [] [mkCooldown 7 1000] [] 60001999 [])).
  - reflexivity.
  - reflexivity.
Defined.

(** C6, as stated, fails in the last digits: a message admitted at clock
    1999 microseconds leaves the cooldown record at 1000, not at the clock;
    so the next message, at clock 60001500, less than 60 seconds after the
    first, is admitted and broadcast. *)
Lemma admission_stores_milliseconds :
  let w := mkWorld [mkUser 7 false false] [] [] [] 1999 [] in
  let message := mkMessage 7 None 10 None "" "hello" in
  let w1 := final (text_handler scenario_transport message w) in
  let later := at_time 60001500 w1 in
  cooldown w1 = [mkCooldown 7 1000]
  /\ sent_at (mkCooldown 7 1000) <> clock w
  /\ clock later - clock w < timedelta_seconds 60
  /\ cooldown_check 7 later = Ret true later
  /\ trace (final (text_handler scenario_transport
                     (mkMessage 7 None 11 None "" "again") later))
     = [CopyMessage 7 7 10 None NotFound; Reply 7 (SentToUsers 1);
        CopyMessage 7 7 11 None NotFound; Reply 7 (SentToUsers 1)].
Proof.
  vm_compute. repeat split; discriminate.
Qed.

(** ** Ban and unban *)

Lemma ban_loop_cons (message : Message) (msg : SentMessage) (msgs : list SentMessage)
    (uid0 : Z) (w : World) :
  ban_loop message (msg :: msgs) uid0 w
  = match find_one (by_user_id (from_user_id message)) (users w) with
    | Some issuer =>
        if admin issuer then
          match find_one (by_user_id (sender_id msg)) (users w) with
          | Some user =>
              if (vip user || admin user) && negb (int64 (sender_id msg))
              then Raise OverflowError w
              else ban_loop message msgs (sender_id msg)
                            (after_ban (sender_id msg) user w)
          | None => Raise TypeError w
          end
        else Ret None (emit (Reply (from_user_id message) NoRightsBan) w)
    | None => Ret None (emit (Reply (from_user_id message) NoRightsBan) w)
    end.
Proof.
  cbn [ban_loop]. unfold after_ban.
  rewrite (bind_Ret _ _ w w _ (is_admin_reads _ w)).
  destruct (find_one (by_user_id (from_user_id message)) (users w)) as [issuer|];
    [destruct (admin issuer)|]; try reflexivity.
  cbn [negb].
  unfold users_find_one at 1, bind at 1, gets at 1.
  destruct (find_one (by_user_id (sender_id msg)) (users w)) as [user|];
    [|reflexivity].
  unfold save_user.
  destruct user as [i [|] [|]]; destruct (int64 (sender_id msg)); reflexivity.
Qed.

Lemma after_ban_banned (uid : Z) (user : User) (w : World) :
  find_one (by_user_id uid) (users w) = Some user ->
  banned uid (clock w) (after_ban uid user w)
  /\ clock (after_ban uid user w) = clock w
  /\ trace (after_ban uid user w) = trace w
  /\ sent_messages (after_ban uid user w) = sent_messages w.
Proof.
  intros Hu. unfold banned. split; [split; [|split]|].
  - unfold after_ban. cbn [cooldown with_cooldown].
    rewrite find_one_upsert_one.
    + match goal with |- context [find_one ?p ?l] =>
        destruct (find_one p l) as [c|] eqn:E end; [|reflexivity].
      apply find_one_holds in E. unfold by_cooldown_user in E.
      apply Z.eqb_eq in E. rewrite E. reflexivity.
    + unfold by_cooldown_user. simpl. apply Z.eqb_refl.
    + intros x Hx. exact Hx.
  - rewrite is_admin_reads. f_equal.
    unfold after_ban. destruct user as [i a v]. cbn [vip admin users with_users with_cooldown].
    destruct v, a; cbn [users with_users];
      first
        [ rewrite Hu; reflexivity
        | rewrite find_one_upsert_one;
          [ match goal with |- context [find_one ?p ?l] => destruct (find_one p l) end;
            reflexivity
          | unfold by_user_id; simpl; apply Z.eqb_refl
          | intros; unfold by_user_id; simpl; apply Z.eqb_refl ] ].
  - rewrite is_vip_reads. f_equal.
    unfold after_ban. destruct user as [i a v]. cbn [vip admin users with_users with_cooldown].
    destruct v, a; cbn [users with_users];
      first
        [ rewrite Hu; reflexivity
        | rewrite find_one_upsert_one;
          [ match goal with |- context [find_one ?p ?l] => destruct (find_one p l) end;
            reflexivity
          | unfold by_user_id; simpl; apply Z.eqb_refl
          | intros; unfold by_user_id; simpl; apply Z.eqb_refl ] ].
  - unfold after_ban. destruct (vip user), (admin user); repeat split.
Qed.

Lemma banned_emit (u t : Z) (e : Effect) (w : World) :
  banned u t w -> banned u t (emit e w).
Proof.
  unfold banned. rewrite !is_admin_reads, !is_vip_reads. simpl.
  intros (Hc & Ha & Hv). injection Ha as Ha. injection Hv as Hv.
  rewrite Ha, Hv. repeat split. exact Hc.
Qed.

Lemma ban_loop_spec (message : Message) (msgs : list SentMessage) :
  forall uid0 w res w',
    ban_loop message msgs uid0 w = Ret res w' ->
    clock w' = clock w
    /\ sent_messages w' = sent_messages w
    /\ match res with
       | None => trace w' = trace w ++ [Reply (from_user_id message) NoRightsBan]
       | Some u =>
           trace w' = trace w
           /\ ((msgs = [] /\ u = uid0 /\ w' = w) \/ banned u (clock w) w')
       end.
Proof.
  induction msgs as [|msg msgs IH]; intros uid0 w res w' H.
  - injection H as <- <-. repeat split. left. repeat split.
  - rewrite ban_loop_cons in H.
    assert (Hdenied : Ret None (emit (Reply (from_user_id message) NoRightsBan) w)
                      = Ret res w' ->
                      clock w' = clock w /\ sent_messages w' = sent_messages w
                      /\ match res with
                         | None => trace w' = trace w
                                     ++ [Reply (from_user_id message) NoRightsBan]
                         | Some u => trace w' = trace w
                                     /\ ((msg :: msgs = [] /\ u = uid0 /\ w' = w)
                                         \/ banned u (clock w) w')
                         end).
    { intros E. injection E as <- <-. repeat split. }
    destruct (find_one (by_user_id (from_user_id message)) (users w)) as [issuer|];
      [|auto].
    destruct (admin issuer); [|auto].
    destruct (find_one (by_user_id (sender_id msg)) (users w)) as [user|] eqn:Hu;
      [|discriminate].
    destruct ((vip user || admin user) && negb (int64 (sender_id msg)));
      [discriminate|].
    destruct (after_ban_banned (sender_id msg) user w Hu) as (Hb & Hc & Ht & Hm).
    apply IH in H. destruct H as (Hc' & Hm' & Hres).
    split; [congruence|]. split; [congruence|].
    destruct res as [u|].
    + destruct Hres as (Ht' & Hcase). split; [congruence|].
      right. destruct Hcase as [(_ & -> & ->) | Hb'].
      * exact Hb.
      * rewrite <- Hc. exact Hb'.
    + congruence.
Qed.

Lemma replied_records_reads (r : ReplyTo) (w : World) :
  exists msgs, replied_records r w = Ret msgs w.
Proof.
  unfold replied_records. destruct (reply_from_is_bot r); run; eauto.
Qed.

Lemma trace_grew_by_one (l : list Effect) (e : Effect) : l <> l ++ [e].
Proof.
  intros H. apply (f_equal (@List.length Effect)) in H.
  rewrite length_app in H. simpl in H. lia.
Qed.

(** When [ban_handler] has answered that [u] was banned, [u] is left with a
    cooldown record a year ahead of the clock and without privileges. *)
Lemma ban_handler_banned (message : Message) (u : Z) (w w' : World) :
  ban_handler message w = Ret tt w' ->
  trace w' = trace w ++ [Reply (from_user_id message) (Banned u)] ->
  banned u (clock w) w'.
Proof.
  unfold ban_handler. intros H Ht.
  destruct (reply_to_message message) as [r|].
  2:{ injection H as <-. exfalso. exact (trace_grew_by_one _ _ Ht). }
  destruct (replied_records_reads r w) as (msgs & Hm).
  rewrite (bind_Ret _ _ w w msgs Hm) in H.
  destruct (ban_loop message msgs 0 w) as [res w1|e w1] eqn:Hloop.
  2:{ rewrite (bind_Raise _ _ w w1 e Hloop) in H. discriminate. }
  rewrite (bind_Ret _ _ w w1 res Hloop) in H.
  apply ban_loop_spec in Hloop. destruct Hloop as (Hc & _ & Hres).
  destruct res as [uid|].
  - destruct Hres as (Ht1 & Hcase).
    destruct (uid =? 0) eqn:E; cbn [negb] in H; injection H as <-;
      simpl in Ht; rewrite Ht1 in Ht; apply app_inv_head in Ht;
      [discriminate|].
    injection Ht as ->.
    destruct Hcase as [(_ & -> & _) | Hb]; [discriminate|].
    apply banned_emit. exact Hb.
  - injection H as <-. rewrite Hres in Ht. apply app_inv_head in Ht. discriminate.
Qed.

(** C5, as amended: once [ban_handler] has answered that [u] was banned at
    clock [t], the cooldown record of [u] holds [t] + 365 days, rounded down
    to whole milliseconds as the store keeps it. In every later world in
    which that record and the directory document of [u] are still those the
    ban left, a message of [u] is answered with the request to wait as long
    as the clock is below that timestamp + 60 seconds; from that clock on
    [cooldown_check] lets [u] through again. *)
Theorem ban_denies_for_a_year (tg : Transport) (message : Message) (u : Z)
    (w w' later : World) (next : Message) :
  ban_handler message w = Ret tt w' ->
  trace w' = trace w ++ [Reply (from_user_id message) (Banned u)] ->
  from_user_id next = u ->
  find_one (by_cooldown_user u) (cooldown later)
  = find_one (by_cooldown_user u) (cooldown w') ->
  find_one (by_user_id u) (users later) = find_one (by_user_id u) (users w') ->
  find_one (by_cooldown_user u) (cooldown w')
  = Some (mkCooldown u (floor_ms (clock w + timedelta_days 365)))
  /\ (clock later < floor_ms (clock w + timedelta_days 365) + timedelta_seconds 60 ->
      text_handler tg next later = Ret tt (emit (Reply u PleaseWait) later))
  /\ (floor_ms (clock w + timedelta_days 365) + timedelta_seconds 60 <= clock later ->
      cooldown_check u later = Ret true later).
Proof.
  intros Hban Ht Hnext Hcd Hus.
  destruct (ban_handler_banned message u w w' Hban Ht) as (Hrec & Hadm & Hvip).
  split; [exact Hrec|].
  rewrite is_admin_reads in Hadm. injection Hadm as Hadm.
  rewrite is_vip_reads in Hvip. injection Hvip as Hvip.
  rewrite <- Hus in Hadm, Hvip. rewrite Hrec in Hcd.
  assert (Hel : cooldown_elapsed u later
                <-> floor_ms (clock w + timedelta_days 365) + timedelta_seconds 60
                    <= clock later).
  { unfold cooldown_elapsed. rewrite Hcd. cbn [sent_at]. lia. }
  destruct (cooldown_check_spec u later) as [[He Hc] | [He Hc]].
  - split; [|intros _; exact Hc].
    intros Hlt. apply Hel in He. lia.
  - split; [|intros Hge; apply Hel in Hge; contradiction].
    intros _. subst u.
    rewrite text_handler_non_privileged.
    + rewrite (bind_Ret _ _ later later false Hc). reflexivity.
    + rewrite is_admin_reads, Hadm. reflexivity.
    + rewrite is_vip_reads, Hvip. reflexivity.
Qed.

Lemma ban_denies_for_a_year_witness :
  let w := at_time 1999 ban_world in
  let w' := final (ban_handler ban_command w) in
  let later := at_time (timedelta_days 365 + 1000 + timedelta_seconds 60 - 1) w' in
  let next := mkMessage 2 None 30 None "" "hello" in
  find_one (by_cooldown_user 2) (cooldown w')
  = Some (mkCooldown 2 (floor_ms (clock w + timedelta_days 365)))
  /\ (clock later < floor_ms (clock w + timedelta_days 365) + timedelta_seconds 60 ->
      text_handler scenario_transport next later
      = Ret tt (emit (Reply 2 PleaseWait) later))
  /\ (floor_ms (clock w + timedelta_days 365) + timedelta_seconds 60 <= clock later ->
      cooldown_check 2 later = Ret true later).
Proof.
  apply (ban_denies_for_a_year scenario_transport ban_command 2
           (at_time 1999 ban_world)
           (final (ban_handler ban_command (at_time 1999 ban_world)))
           (at_time (timedelta_days 365 + 1000 + timedelta_seconds 60 - 1)
                    (final (ban_handler ban_command (at_time 1999 ban_world))))
           (mkMessage 2 None 30 None "" "hello")).
  - reflexivity.
  - reflexivity.
  - reflexivity.
  - reflexivity.
  - reflexivity.
Defined.

(** C5, as stated, fails: 365 days and 60 seconds after the ban, with no
    unban in between, the banned user is admitted again and the message is
    broadcast. *)
Lemma ban_expires_after_a_year :
  let banned_world := final (ban_handler ban_command ban_world) in
  let later := at_time year_and_minute banned_world in
  let next := mkMessage 2 None 30 None "" "hello" in
  trace banned_world = [Reply 1 (Banned 2)]
  /\ cooldown later = [mkCooldown 2 (timedelta_days 365)]
  /\ cooldown_check 2 later = Ret true later
  /\ trace (final (text_handler scenario_transport next later))
     = [Reply 1 (Banned 2);
        CopyMessage 1 2 30 None NotFound;
        CopyMessage 2 2 30 None NotFound;
        Reply 2 (SentToUsers 2)].
Proof.
  vm_compute. repeat split.
Qed.

(** ** The delete command *)

Lemma add_trace_nil (w : World) : add_trace [] w = w.
Proof.
  destruct w. unfold add_trace. simpl. rewrite app_nil_r. reflexivity.
Qed.

Lemma add_trace_add_trace (t1 t2 : list Effect) (w : World) :
  add_trace t2 (add_trace t1 w) = add_trace (t1 ++ t2) w.
Proof.
  unfold add_trace. simpl. rewrite app_assoc. reflexivity.
Qed.

Lemma delete_copy_spec (tg : Transport) (msg_need : SentMessage) (w : World) :
  exists t, delete_copy tg msg_need w = Ret tt (add_trace t w).
Proof.
  unfold delete_copy, bot_delete_message. run.
  destruct (delete_message tg _ _) as [e|].
  - exists [DeleteMessage (receiver_id msg_need) (receiver_message_id msg_need);
            LogException e].
    unfold logging_exception, modify, add_trace, emit. simpl.
    rewrite <- app_assoc. reflexivity.
  - exists [DeleteMessage (receiver_id msg_need) (receiver_message_id msg_need)].
    reflexivity.
Qed.

Lemma delete_copies_spec (tg : Transport) (l : list SentMessage) :
  forall w, exists t, for_each l (delete_copy tg) w = Ret tt (add_trace t w).
Proof.
  induction l as [|x l IH]; intros w.
  - exists []. rewrite add_trace_nil. reflexivity.
  - destruct (delete_copy_spec tg x w) as (t1 & H1).
    destruct (IH (add_trace t1 w)) as (t2 & H2).
    exists (t1 ++ t2). cbn [for_each].
    rewrite (bind_Ret _ _ w _ tt H1), H2, add_trace_add_trace. reflexivity.
Qed.

Lemma delete_loop_spec (tg : Transport) (message : Message) (msgs : list SentMessage) :
  forall w, exists b t, delete_loop tg message msgs w = Ret b (add_trace t w).
Proof.
  induction msgs as [|msg msgs IH]; intros w.
  - exists true, []. rewrite add_trace_nil. reflexivity.
  - cbn [delete_loop].
    rewrite (bind_Ret _ _ w w _ (is_admin_reads _ w)).
    match goal with |- context [if ?c then _ else _] => destruct c end.
    + exists false, [Reply (from_user_id message) NoRightsDelete]. reflexivity.
    + rewrite bind_gets.
      match goal with |- context [for_each ?l _] =>
        destruct (delete_copies_spec tg l w) as (t1 & H1) end.
      rewrite (bind_Ret _ _ w _ tt H1).
      destruct (IH (add_trace t1 w)) as (b & t2 & H2).
      exists b, (t1 ++ t2). rewrite H2, add_trace_add_trace. reflexivity.
Qed.

(** [delete_handler] always returns, and changes nothing but the trace:
    the ledger, the directory and the cooldown records stay as they were. *)
Lemma delete_handler_only_trace (tg : Transport) (message : Message) (w : World) :
  exists t, delete_handler tg message w = Ret tt (add_trace t w).
Proof.
  unfold delete_handler.
  destruct (reply_to_message message) as [r|].
  - destruct (replied_records_reads r w) as (msgs & Hm).
    rewrite (bind_Ret _ _ w w msgs Hm).
    destruct (delete_loop_spec tg message msgs w) as (b & t & Hl).
    rewrite (bind_Ret _ _ w _ b Hl).
    destruct b.
    + exists (t ++ [Reply (from_user_id message) DeletedForAll]).
      rewrite <- add_trace_add_trace. reflexivity.
    + exists t. reflexivity.
  - exists []. rewrite add_trace_nil. reflexivity.
Qed.

Lemma delete_denied_at_first (tg : Transport) (message : Message) (r : ReplyTo)
    (first : SentMessage) (rest : list SentMessage) (w : World) :
  reply_to_message message = Some r ->
  replied_records r w = Ret (first :: rest) w ->
  is_admin (from_user_id message) w = Ret false w ->
  from_user_id message <> sender_id first ->
  delete_handler tg message w
  = Ret tt (emit (Reply (from_user_id message) NoRightsDelete) w).
Proof.
  intros Hr Hm Hadm Hne.
  unfold delete_handler. rewrite Hr.
  rewrite (bind_Ret _ _ w w _ Hm).
  assert (Hl : delete_loop tg message (first :: rest) w
               = Ret false (emit (Reply (from_user_id message) NoRightsDelete) w)).
  { cbn [delete_loop].
    rewrite (bind_Ret _ _ w w _ Hadm).
    apply Z.eqb_neq in Hne. rewrite Hne. reflexivity. }
  rewrite (bind_Ret _ _ w _ _ Hl). reflexivity.
Qed.

(** The guard of [delete_handler], where it works: let the replied-to
    message resolve to at least one record and take as its original sender
    the [sender_id] of the first such record. An
    issuer who is neither admin nor that sender gets the reply that they
    have no right to delete, and nothing else happens; so whenever the
    handler calls the transport to delete a copy or reports the deletion,
    the issuer is an admin or that sender. In every case the handler
    returns and leaves the ledger as it was. *)
Lemma delete_guard_at_first_record (tg : Transport) (message : Message)
    (r : ReplyTo) (first : SentMessage) (rest : list SentMessage) (w : World) :
  reply_to_message message = Some r ->
  replied_records r w = Ret (first :: rest) w ->
  let issuer := from_user_id message in
  (is_admin issuer w = Ret false w -> issuer <> sender_id first ->
   delete_handler tg message w = Ret tt (emit (Reply issuer NoRightsDelete) w))
  /\ (forall t e,
        delete_handler tg message w = Ret tt (add_trace t w) ->
        In e t -> is_delete e = true \/ e = Reply issuer DeletedForAll ->
        is_admin issuer w = Ret true w \/ issuer = sender_id first)
  /\ (exists t, delete_handler tg message w = Ret tt (add_trace t w))
  /\ sent_messages (final (delete_handler tg message w)) = sent_messages w.
Proof.
  intros Hr Hm issuer.
  split; [|split; [|split]].
  - apply delete_denied_at_first with (r := r) (rest := rest); assumption.
  - intros t e Hrun Hin He.
    rewrite is_admin_reads.
    destruct (match find_one (by_user_id issuer) (users w) with
              | Some u => admin u
              | None => false
              end) eqn:Ha; [left; reflexivity|].
    destruct (Z.eq_dec issuer (sender_id first)) as [Heq|Hne]; [right; exact Heq|].
    exfalso.
    rewrite (delete_denied_at_first tg message r first rest w Hr Hm) in Hrun;
      [ | rewrite is_admin_reads; fold issuer; rewrite Ha; reflexivity | exact Hne ].
    injection Hrun as Hrun.
    apply app_inv_head in Hrun. subst t.
    destruct Hin as [<-|[]]. destruct He as [He|He]; discriminate.
  - apply delete_handler_only_trace.
  - destruct (delete_handler_only_trace tg message w) as (t & ->). reflexivity.
Qed.

(** The sender 4 deletes the same broadcast by replying to their own
    message 40: both copies are deleted at the transport, and the ledger
    keeps its two records. *)
Example delete_by_sender :
  let w' := final (delete_handler scenario_transport
                     (mkMessage 4 None 73 (Some (mkReplyTo 40 false)) "" "/del")
                     delete_world) in
  trace w' = [DeleteMessage 4 71; DeleteMessage 5 70;
              DeleteMessage 4 71; DeleteMessage 5 70;
              Reply 4 DeletedForAll]
  /\ sent_messages w' = sent_messages delete_world.
Proof.
  vm_compute. split; reflexivity.
Qed.

(** C7: [/del] from user 5, who is neither admin nor the sender of the
    replied-to message, is not always a denial without effects. Replying to
    the copy 70 of the broadcast of user 4, user 5 is denied and nothing
    else happens. Replying to the bot message 99, which resolves to no
    record, user 5 is told that the message was deleted for all users. And
    when the replied-to id resolves to records of several senders, the
    check is made record by record: replying to the copy 90 received from
    user 6, user 5 first has the copy of their own broadcast deleted at
    user 7, which bears the same id, and is then denied. *)
Theorem delete_not_denied_or_not_without_effects :
  let effects message w :=
    trace (final (delete_handler scenario_transport message w)) in
  is_admin 5 delete_world = Ret false delete_world
  /\ is_admin 5 shared_id_world = Ret false shared_id_world
  /\ replied_records (mkReplyTo 70 true) delete_world
     = Ret [mkSentMessage 4 70 5 70 40] delete_world
  /\ effects delete_command delete_world = [Reply 5 NoRightsDelete]
  /\ replied_records (mkReplyTo 99 true) delete_world = Ret [] delete_world
  /\ effects (mkMessage 5 None 72 (Some (mkReplyTo 99 true)) "" "/del") delete_world
     = [Reply 5 DeletedForAll]
  /\ replied_records (mkReplyTo 90 true) shared_id_world
     = Ret [mkSentMessage 5 90 7 90 80; mkSentMessage 6 90 5 90 81] shared_id_world
  /\ effects (mkMessage 5 None 91 (Some (mkReplyTo 90 true)) "" "/del") shared_id_world
     = [DeleteMessage 7 90; Reply 5 NoRightsDelete].
Proof.
  vm_compute. repeat split.
Qed.

(** ** A replied-to message without a record *)

Lemma delete_not_found (tg : Transport) (message : Message) (r : ReplyTo) (w : World) :
  reply_to_message message = Some r ->
  replied_records r w = Ret [] w ->
  delete_handler tg message w
  = Ret tt (emit (Reply (from_user_id message) DeletedForAll) w).
Proof.
  intros Hr Hm. unfold delete_handler. rewrite Hr.
  rewrite (bind_Ret _ _ w w _ Hm). reflexivity.
Qed.

Lemma ban_not_found (message : Message) (r : ReplyTo) (w : World) :
  reply_to_message message = Some r ->
  replied_records r w = Ret [] w ->
  ban_handler message w
  = Ret tt (emit (Reply (from_user_id message) SomethingWentWrong) w).
Proof.
  intros Hr Hm. unfold ban_handler. rewrite Hr.
  rewrite (bind_Ret _ _ w w _ Hm). reflexivity.
Qed.

Lemma unban_not_found (message : Message) (r : ReplyTo) (w : World) :
  reply_to_message message = Some r ->
  replied_records r w = Ret [] w ->
  unban_handler message w
  = Ret tt (emit (Reply (from_user_id message) SomethingWentWrong) w).
Proof.
  intros Hr Hm. unfold unban_handler. rewrite Hr.
  rewrite (bind_Ret _ _ w w _ Hm). reflexivity.
Qed.

(** C8: replying to message 99, for which the ledger has no record, the
    issuer of [/ban] and of [/unban] is told that something went wrong, and
    the issuer of [/del] is told that the message was deleted for all
    users; the collections are unchanged in the three cases. *)
Theorem not_found_reply_per_command :
  let command := mkMessage 5 None 72 (Some (mkReplyTo 99 true)) "" "" in
  ban_handler command delete_world
  = Ret tt (emit (Reply 5 SomethingWentWrong) delete_world)
  /\ unban_handler command delete_world
     = Ret tt (emit (Reply 5 SomethingWentWrong) delete_world)
  /\ delete_handler scenario_transport command delete_world
     = Ret tt (emit (Reply 5 DeletedForAll) delete_world).
Proof.
  repeat split.
Qed.

(** ** Events that end in an exception *)

Lemma text_handler_unregistered (tg : Transport) (message : Message) (w : World) :
  find_one (by_user_id (from_user_id message)) (users w) = None ->
  cooldown_elapsed (from_user_id message) w ->
  exists w',
    text_handler tg message w = Raise TypeError w'
    /\ trace w' = trace w
    /\ find_one (by_cooldown_user (from_user_id message)) (cooldown w')
       = Some (mkCooldown (from_user_id message) (floor_ms (clock w))).
Proof.
  intros Hu He.
  rewrite text_handler_non_privileged
    by (rewrite ?is_admin_reads, ?is_vip_reads, Hu; reflexivity).
  destruct (cooldown_check_spec (from_user_id message) w) as [[_ Hc] | [Hn _]];
    [|contradiction].
  rewrite (bind_Ret _ _ w w true Hc).
  destruct (cooldown_set_spec (from_user_id message) (clock w) w)
    as (w1 & Hset & Hfind & Hus & _ & _ & _ & Ht).
  exists w1.
  rewrite (bind_Ret _ _ w w1 tt) by exact Hset.
  rewrite broadcast_message_unregistered by (rewrite Hus; exact Hu).
  repeat split; assumption.
Qed.

Lemma edit_handler_unregistered (tg : Transport) (message : Message) (w : World) :
  find_one (by_user_id (from_user_id message)) (users w) = None ->
  edit_handler tg message w = Raise TypeError w.
Proof.
  intros Hu. unfold edit_handler.
  rewrite (bind_Ret _ _ w w None)
    by (unfold users_find_one, gets; rewrite Hu; reflexivity).
  reflexivity.
Qed.

Lemma admin_handler_malformed (admin_id : Z) (int_other : string -> option Z)
    (message : Message) (w : World) :
  from_user_id message = admin_id ->
  py_int int_other (args message) = None ->
  admin_handler admin_id int_other message w = Raise ValueError w.
Proof.
  intros Hi Ha. unfold admin_handler.
  rewrite Hi, Z.eqb_refl, Ha. reflexivity.
Qed.

(** C9: three events that end in an exception no handler catches. A first
    message of user 9, who has no directory entry, raises [TypeError] in
    [broadcast_message] after the cooldown record was written, and nothing
    is sent; an edit by user 9 raises [TypeError]; [/admin abc] from the
    configured admin 1 raises [ValueError]. *)
Theorem unhandled_exceptions (int_other : string -> option Z) :
  let w := scenario_world in
  text_handler scenario_transport (mkMessage 9 None 10 None "" "hello") w
  = Raise TypeError (with_cooldown (fun _ => [mkCooldown 9 0]) w)
  /\ edit_handler scenario_transport (mkMessage 9 None 10 None "" "hello") w
     = Raise TypeError w
  /\ admin_handler 1 int_other (mkMessage 1 None 11 None "abc" "/admin abc") w
     = Raise ValueError w
  /\ admin_handler 1 int_other (mkMessage 1 None 11 None "" "/admin") w
     = Raise ValueError w.
Proof.
  repeat split.
Qed.

(** * Further properties of the code *)

(** ** [str] and [int] *)

Lemma int_digits_digit (c : ascii) (d : Z) (s : string) (acc : Z) (b : bool) :
  digit_of c = Some d -> int_digits (String c s) acc b = int_digits s (acc * 10 + d) true.
Proof.
  intros H. cbn [int_digits]. rewrite H. reflexivity.
Qed.

Lemma int_digits_acc (d : Decimal.uint) :
  forall p, int_digits (NilEmpty.string_of_uint d) (Zpos p) true
            = Some (Zpos (Pos.of_uint_acc d p)).
Proof.
  induction d; intros p; cbn [NilEmpty.string_of_uint Pos.of_uint_acc];
    [reflexivity | ..];
    erewrite int_digits_digit by reflexivity;
    rewrite <- IHd; f_equal;
    match goal with |- context [Z.of_nat (nat_of_ascii ?c) - 48] =>
      let v := eval vm_compute in (Z.of_nat (nat_of_ascii c) - 48) in
      change (Z.of_nat (nat_of_ascii c) - 48) with v
    end; lia.
Qed.

Lemma int_digits_zero (d : Decimal.uint) :
  int_digits (NilEmpty.string_of_uint d) 0 true = Some (Z.of_N (Pos.of_uint d)).
Proof.
  induction d; cbn [NilEmpty.string_of_uint Pos.of_uint];
    [reflexivity | ..];
    erewrite int_digits_digit by reflexivity;
    [exact IHd | ..];
    apply int_digits_acc.
Qed.

Lemma int_digits_nonnil (d : Decimal.uint) (b : bool) :
  d <> Decimal.Nil ->
  int_digits (NilEmpty.string_of_uint d) 0 b = Some (Z.of_N (Pos.of_uint d)).
Proof.
  intros Hd. rewrite <- int_digits_zero.
  destruct d; [contradiction | ..]; cbn [NilEmpty.string_of_uint];
    erewrite !int_digits_digit by reflexivity; reflexivity.
Qed.

Lemma py_int_digit_first (c : ascii) (s : string) (d : Z) :
  digit_of c = Some d -> py_int_ascii (String c s) = int_digits (String c s) 0 false.
Proof.
  destruct c as [[|] [|] [|] [|] [|] [|] [|] [|]]; intros H;
    try discriminate H; reflexivity.
Qed.

Lemma py_int_uint (d : Decimal.uint) :
  d <> Decimal.Nil ->
  py_int_ascii (NilEmpty.string_of_uint d) = Some (Z.of_N (Pos.of_uint d)).
Proof.
  intros Hd. rewrite <- (int_digits_nonnil d false Hd).
  destruct d; [contradiction | ..]; cbn [NilEmpty.string_of_uint];
    eapply py_int_digit_first; reflexivity.
Qed.

Lemma nilzero_string_of_uint (d : Decimal.uint) :
  d <> Decimal.Nil -> NilZero.string_of_uint d = NilEmpty.string_of_uint d.
Proof.
  destruct d; [contradiction | ..]; reflexivity.
Qed.

(** [int(str(n))] is [n], as far as the ASCII reading goes. *)
Lemma py_int_ascii_py_str (n : Z) : py_int_ascii (py_str n) = Some n.
Proof.
  unfold py_str. destruct n as [|p|p]; [reflexivity | |].
  - cbn [Z.to_int NilZero.string_of_int].
    rewrite nilzero_string_of_uint by apply DecimalPos.Unsigned.to_uint_nonnil.
    rewrite py_int_uint by apply DecimalPos.Unsigned.to_uint_nonnil.
    rewrite DecimalPos.Unsigned.of_to. reflexivity.
  - cbn [Z.to_int NilZero.string_of_int].
    rewrite nilzero_string_of_uint by apply DecimalPos.Unsigned.to_uint_nonnil.
    change (py_int_ascii (String "-" (NilEmpty.string_of_uint (Pos.to_uint p))))
      with (option_map Z.opp
              (int_digits (NilEmpty.string_of_uint (Pos.to_uint p)) 0 false)).
    rewrite int_digits_nonnil by apply DecimalPos.Unsigned.to_uint_nonnil.
    rewrite DecimalPos.Unsigned.of_to. reflexivity.
Qed.

(** ** The directory: [save_user] and the grant commands *)

Lemma find_one_upsert_other {A} (p q : A -> bool) (f : A -> A) (d : A) (c : list A) :
  q d = false ->
  (forall x, p x = true -> q x = false /\ q (f x) = false) ->
  find_one q (upsert_one p f d c) = find_one q c.
Proof.
  intros Hd Hp. unfold find_one.
  induction c as [|x c IH]; simpl.
  - rewrite Hd. reflexivity.
  - destruct (p x) eqn:E; simpl.
    + destruct (Hp x E) as [-> ->]. reflexivity.
    + destruct (q x); [reflexivity | exact IH].
Qed.

Lemma upsert_user_ids (id : Z) (a v : bool) (c : list User) :
  map user_id (upsert_one (by_user_id id) (fun _ => mkUser id a v) (mkUser id a v) c)
  = map user_id c
  \/ (~ In id (map user_id c)
      /\ map user_id (upsert_one (by_user_id id) (fun _ => mkUser id a v)
                                 (mkUser id a v) c)
         = map user_id c ++ [id]).
Proof.
  induction c as [|x c IH].
  - right. split; [simpl; tauto | reflexivity].
  - cbn [upsert_one]. destruct (by_user_id id x) eqn:E; cbn [map user_id].
    + unfold by_user_id in E. apply Z.eqb_eq in E. left. rewrite E. reflexivity.
    + unfold by_user_id in E. apply Z.eqb_neq in E. destruct IH as [IH | [Hn IH]].
      * left. rewrite IH. reflexivity.
      * right. split; [|rewrite IH; reflexivity].
        intros [H|H]; [apply E; exact H | apply Hn; exact H].
Qed.

Lemma NoDup_snoc {A} (l : list A) (x : A) : NoDup l -> ~ In x l -> NoDup (l ++ [x]).
Proof.
  induction l as [|y l IH]; intros Hnd Hn; simpl.
  - constructor; [tauto | constructor].
  - inversion Hnd as [|? ? Hy Hl]; subst. constructor.
    + rewrite in_app_iff. simpl in *. intros [H|[H|[]]]; [tauto | subst; tauto].
    + apply IH; [assumption | simpl in Hn; tauto].
Qed.

Lemma save_user_spec (id : Z) (a v : bool) (w : World) :
  int64 id = true ->
  exists w',
    save_user id a v w = Ret tt w'
    /\ find_one (by_user_id id) (users w') = Some (mkUser id a v)
    /\ (forall other, other <> id ->
          find_one (by_user_id other) (users w') = find_one (by_user_id other) (users w))
    /\ (NoDup (map user_id (users w)) -> NoDup (map user_id (users w')))
    /\ (List.length (users w) <= List.length (users w') <= S (List.length (users w)))%nat
    /\ settings w' = settings w /\ cooldown w' = cooldown w
    /\ sent_messages w' = sent_messages w /\ clock w' = clock w /\ trace w' = trace w.
Proof.
  intros Hid. unfold save_user. rewrite Hid.
  eexists. split; [reflexivity|]. cbn [users with_users settings cooldown sent_messages
                                        clock trace].
  split; [|split; [|split; [|split; [|repeat split]]]].
  - rewrite find_one_upsert_one.
    + destruct (find_one _ _); reflexivity.
    + unfold by_user_id. simpl. apply Z.eqb_refl.
    + intros. unfold by_user_id. simpl. apply Z.eqb_refl.
  - intros other Hne. apply find_one_upsert_other.
    + unfold by_user_id. simpl. apply Z.eqb_neq. congruence.
    + intros x Hx. unfold by_user_id in *. simpl.
      apply Z.eqb_eq in Hx. split; apply Z.eqb_neq; congruence.
  - intros Hnd. destruct (upsert_user_ids id a v (users w)) as [E | [Hn E]];
      rewrite E; [assumption | apply NoDup_snoc; assumption].
  - destruct (upsert_user_ids id a v (users w)) as [E | [_ E]];
      apply (f_equal (@List.length Z)) in E;
      rewrite ?length_app, !length_map in E; simpl in E; lia.
Qed.

Lemma save_user_overflow (id : Z) (a v : bool) (w : World) :
  int64 id = false -> save_user id a v w = Raise OverflowError w.
Proof.
  intros Hid. unfold save_user. rewrite Hid. reflexivity.
Qed.

(** X1: [save_user] writes and reads back, for the ids the store takes.
    For an id of at most 8 bytes, after [save_user id a v] the lookup of
    [id] gives the document with exactly these flags, the lookup of every
    other user is as before, the directory has grown by at most one
    document, and user ids that were unique stay unique. For an id beyond 8
    bytes the call raises [OverflowError] and writes nothing. *)
Theorem save_user_round_trip (id : Z) (a v : bool) (w : World) :
  (int64 id = true ->
   exists w',
     save_user id a v w = Ret tt w'
     /\ find_one (by_user_id id) (users w') = Some (mkUser id a v)
     /\ (forall other, other <> id ->
           find_one (by_user_id other) (users w') = find_one (by_user_id other) (users w))
     /\ (NoDup (map user_id (users w)) -> NoDup (map user_id (users w')))
     /\ (List.length (users w) <= List.length (users w')
                               <= S (List.length (users w)))%nat)
  /\ (int64 id = false -> save_user id a v w = Raise OverflowError w).
Proof.
  split; [|apply save_user_overflow].
  intros Hid.
  destruct (save_user_spec id a v w Hid) as (w' & H1 & H2 & H3 & H4 & H5 & _).
  exists w'. repeat split; try assumption; apply H5.
Qed.

Lemma save_user_round_trip_witness :
  (exists w',
     save_user 3 true false scenario_world = Ret tt w'
     /\ find_one (by_user_id 3) (users w') = Some (mkUser 3 true false)
     /\ (forall other, other <> 3 ->
           find_one (by_user_id other) (users w')
           = find_one (by_user_id other) (users scenario_world))
     /\ (NoDup (map user_id (users scenario_world)) -> NoDup (map user_id (users w')))
     /\ (List.length (users scenario_world) <= List.length (users w')
                                            <= S (List.length (users scenario_world)))%nat)
  /\ save_user (2 ^ 63) true false scenario_world = Raise OverflowError scenario_world.
Proof.
  split.
  - apply (proj1 (save_user_round_trip 3 true false scenario_world)). reflexivity.
  - apply (proj2 (save_user_round_trip (2 ^ 63) true false scenario_world)).
    reflexivity.
Defined.

Lemma emit_reads (e : Effect) (w : World) :
  users (emit e w) = users w /\ settings (emit e w) = settings w
  /\ cooldown (emit e w) = cooldown w /\ sent_messages (emit e w) = sent_messages w
  /\ clock (emit e w) = clock w.
Proof. repeat split. Qed.



(** X3: [/vip] from the configured admin with an argument that [int] reads
    as [id], [id] of at most 8 bytes, leaves [id] as VIP and not admin: an
    admin flag [id] had is cleared by the grant. *)
Theorem vip_handler_grants (admin_id : Z) (int_other : string -> option Z)
    (message : Message) (id : Z) (w : World) :
  from_user_id message = admin_id ->
  py_int int_other (args message) = Some id ->
  int64 id = true ->
  exists w',
    vip_handler admin_id int_other message w = Ret tt w'
    /\ find_one (by_user_id id) (users w') = Some (mkUser id false true)
    /\ is_admin id w' = Ret false w' /\ is_vip id w' = Ret true w'
    /\ (forall other, other <> id ->
          find_one (by_user_id other) (users w') = find_one (by_user_id other) (users w))
    /\ trace w' = trace w ++ [Reply admin_id Done].
Proof.
  intros Hfrom Hargs Hid.
  destruct (save_user_spec id false true w Hid)
    as (w1 & Hs & Hf & Ho & _ & _ & _ & _ & _ & _ & Ht).
  exists (emit (Reply admin_id Done) w1).
  unfold vip_handler. rewrite Hfrom, Z.eqb_refl, Hargs.
  rewrite (bind_Ret _ _ w w1 tt Hs).
  split; [unfold message_reply; rewrite Hfrom; reflexivity|].
  rewrite is_admin_reads, is_vip_reads. cbn [users emit trace].
  rewrite Hf, Ht. repeat split. exact Ho.
Qed.

Lemma vip_handler_grants_witness :
  exists w',
    vip_handler 1 (fun _ => None) (mkMessage 1 None 11 None "1" "/vip 1") scenario_world
    = Ret tt w'
    /\ find_one (by_user_id 1) (users w') = Some (mkUser 1 false true)
    /\ is_admin 1 w' = Ret false w' /\ is_vip 1 w' = Ret true w'
    /\ (forall other, other <> 1 ->
          find_one (by_user_id other) (users w')
          = find_one (by_user_id other) (users scenario_world))
    /\ trace w' = trace scenario_world ++ [Reply 1 Done].
Proof.
  apply (vip_handler_grants 1 (fun _ => None) (mkMessage 1 None 11 None "1" "/vip 1") 1
           scenario_world).
  - reflexivity.
  - reflexivity.
  - reflexivity.
Defined.

(** X4: the grant commands are reserved to the configured admin: from any
    other user, also one whose directory entry carries the admin flag,
    [/admin] and [/vip] only answer that the user has no right to the
    command, whatever the argument, and nothing is written. *)
Theorem grant_needs_configured_admin (admin_id : Z) (int_other : string -> option Z)
    (message : Message) (w : World) :
  from_user_id message <> admin_id ->
  admin_handler admin_id int_other message w
  = Ret tt (emit (Reply (from_user_id message) NoRightsCommand) w)
  /\ vip_handler admin_id int_other message w
     = Ret tt (emit (Reply (from_user_id message) NoRightsCommand) w).
Proof.
  intros Hne. apply Z.eqb_neq in Hne.
  unfold admin_handler, vip_handler. rewrite Hne. split; reflexivity.
Qed.

Lemma grant_needs_configured_admin_witness :
  let message := mkMessage 1 None 11 None "abc" "/admin abc" in
  admin_handler 8 (fun _ => None) message scenario_world
  = Ret tt (emit (Reply 1 NoRightsCommand) scenario_world)
  /\ vip_handler 8 (fun _ => None) message scenario_world
     = Ret tt (emit (Reply 1 NoRightsCommand) scenario_world).
Proof.
  apply (grant_needs_configured_admin 8 (fun _ => None)
           (mkMessage 1 None 11 None "abc" "/admin abc") scenario_world).
  simpl. lia.
Defined.

(** ** More on the fan-out *)

Lemma delete_one_In {A} (p : A -> bool) (l : list A) (x : A) :
  In x (delete_one p l) -> In x l.
Proof.
  induction l as [|y l IH]; simpl; [tauto|].
  destruct (p y); simpl; tauto.
Qed.

Lemma after_send_more (tg : Transport) (message : Message) (user : User)
    (mk : option string) (lk : Lookup) (w : World) :
  exists t,
    trace (after_send tg message user mk lk w) = trace w ++ t
    /\ map chat_of (List.filter is_copy t) = [user_id user]
    /\ Forall (fun e => is_copy e = true -> markup_of e = mk) t
    /\ (forall x, In x (users (after_send tg message user mk lk w)) -> In x (users w))
    /\ cooldown (after_send tg message user mk lk w) = cooldown w
    /\ settings (after_send tg message user mk lk w) = settings w
    /\ clock (after_send tg message user mk lk w) = clock w.
Proof.
  unfold after_send.
  destruct (copy_message tg (user_id user) (from_user_id message) (message_id message) lk)
    as [e|id]; [destruct e|].
  all: cbn [trace emit with_users with_sent_messages users cooldown settings clock].
  all: rewrite <- ?app_assoc; eexists; split; [reflexivity|].
  all: cbn [List.filter is_copy map chat_of app].
  all: split; [reflexivity|].
  all: split; [repeat constructor; discriminate|].
  all: repeat split; try tauto.
  all: apply delete_one_In.
Qed.

Lemma fan_out_more (tg : Transport) (message : Message) (mk : option string)
    (l : list User) :
  forall w, exists w' t,
    for_each l (fun u => send_msg tg message u mk) w = Ret tt w'
    /\ trace w' = trace w ++ t
    /\ map chat_of (List.filter is_copy t) = map user_id l
    /\ Forall (fun e => is_copy e = true -> markup_of e = mk) t
    /\ (forall x, In x (users w') -> In x (users w))
    /\ cooldown w' = cooldown w /\ settings w' = settings w /\ clock w' = clock w.
Proof.
  induction l as [|u l IH]; intros w.
  - exists w, []. rewrite app_nil_r. repeat split; auto.
  - destruct (send_msg_spec tg message u mk w) as (lk & _ & Hs).
    destruct (after_send_more tg message u mk lk w)
      as (t1 & Ht1 & Hc1 & Hm1 & Hu1 & Hcd1 & Hst1 & Hk1).
    destruct (IH (after_send tg message u mk lk w))
      as (w' & t2 & Hrun & Ht2 & Hc2 & Hm2 & Hu2 & Hcd2 & Hst2 & Hk2).
    exists w', (t1 ++ t2). cbn [for_each].
    rewrite (bind_Ret _ _ w _ tt Hs).
    split; [exact Hrun|].
    rewrite filter_app, map_app, Hc1, Hc2, Ht2, Ht1, app_assoc.
    repeat split; try congruence.
    + apply Forall_app. split; assumption.
    + intros x Hx. apply Hu1, Hu2, Hx.
Qed.

Lemma broadcast_message_more (tg : Transport) (message : Message) (user : User)
    (w : World) :
  find_one (by_user_id (from_user_id message)) (users w) = Some user ->
  exists mk w1 w' t,
    sender_markup message user w = Ret mk w1
    /\ broadcast_message tg message w = Ret tt w'
    /\ trace w' = trace w ++ t ++ [Reply (from_user_id message)
                                         (SentToUsers (List.length (users w)))]
    /\ map chat_of (List.filter is_copy t) = map user_id (users w)
    /\ Forall (fun e => is_copy e = true -> markup_of e = mk) t
    /\ (forall x, In x (users w') -> In x (users w))
    /\ cooldown w' = cooldown w /\ settings w' = settings w1 /\ clock w' = clock w.
Proof.
  intros Hu.
  destruct (sender_markup_spec message user w)
    as (mk & w1 & Hmk & Hus & Hcd & Hsm & Hk & Htr).
  destruct (fan_out_more tg message mk (users w) w1)
    as (w2 & t & Hrun & Ht & Hc & Hm & Hin & Hcd2 & Hst2 & Hk2).
  exists mk, w1, (emit (Reply (from_user_id message)
                             (SentToUsers (List.length (users w)))) w2), t.
  split; [exact Hmk|]. split.
  - unfold broadcast_message.
    rewrite (bind_Ret _ _ w w (Some user))
      by (unfold users_find_one, gets; rewrite Hu; reflexivity).
    rewrite (bind_Ret _ _ w w user) by reflexivity.
    rewrite (bind_Ret _ _ w w1 mk) by assumption.
    rewrite (bind_Ret _ _ w1 w1 (users w))
      by (unfold gets; rewrite Hus; reflexivity).
    rewrite (bind_Ret _ _ w1 w2 tt) by assumption.
    reflexivity.
  - cbn [trace emit users cooldown settings clock].
    rewrite Ht, Htr, <- app_assoc.
    repeat split; try congruence.
    intros x Hx. rewrite <- Hus. apply Hin, Hx.
Qed.

(** X5: a broadcast attempts exactly one copy per directory entry,
    whatever the transport answered to the others, and confirms after the
    last of them: the chats of the copy attempts are, up to order, the user
    ids of the directory; the sender, being in the directory, is among the
    recipients. *)
Theorem broadcast_attempts_every_entry (tg : Transport) (message : Message)
    (user : User) (w : World) :
  find_one (by_user_id (from_user_id message)) (users w) = Some user ->
  exists w' t,
    broadcast_message tg message w = Ret tt w'
    /\ trace w' = trace w ++ t ++ [Reply (from_user_id message)
                                         (SentToUsers (List.length (users w)))]
    /\ Permutation (map chat_of (List.filter is_copy t)) (map user_id (users w))
    /\ In (from_user_id message) (map chat_of (List.filter is_copy t)).
Proof.
  intros Hu.
  destruct (broadcast_message_more tg message user w Hu)
    as (mk & w1 & w' & t & _ & Hrun & Ht & Hc & _).
  exists w', t. split; [exact Hrun|]. split; [exact Ht|]. split.
  - rewrite Hc. apply Permutation_refl.
  - rewrite Hc. apply in_map_iff. exists user.
    unfold find_one in Hu. apply find_some in Hu. destruct Hu as [Hin Hid].
    unfold by_user_id in Hid. apply Z.eqb_eq in Hid. split; assumption.
Qed.

Lemma broadcast_attempts_every_entry_witness :
  exists w' t,
    broadcast_message scenario_transport scenario_message scenario_world = Ret tt w'
    /\ trace w' = trace scenario_world ++ t ++ [Reply 1 (SentToUsers 3)]
    /\ Permutation (map chat_of (List.filter is_copy t))
                   (map user_id (users scenario_world))
    /\ In 1 (map chat_of (List.filter is_copy t)).
Proof.
  apply (broadcast_attempts_every_entry scenario_transport scenario_message
           (mkUser 1 true false) scenario_world).
  reflexivity.
Defined.

(** X6: a broadcast never adds a directory entry and never changes one:
    every document in the directory afterwards was in it before, with the
    same flags; and it leaves the cooldown records as they were. *)
Theorem broadcast_only_prunes (tg : Transport) (message : Message) (w : World) :
  (forall x, In x (users (final (broadcast_message tg message w))) -> In x (users w))
  /\ cooldown (final (broadcast_message tg message w)) = cooldown w.
Proof.
  destruct (find_one (by_user_id (from_user_id message)) (users w)) as [user|] eqn:Hu.
  - destruct (broadcast_message_more tg message user w Hu)
      as (mk & w1 & w' & t & _ & Hrun & _ & _ & _ & Hin & Hcd & _).
    rewrite Hrun. split; assumption.
  - rewrite (broadcast_message_unregistered tg message w Hu). split; auto.
Qed.

(** X7: a transport error other than an unreachable recipient stays with
    that recipient: [send_msg] returns, logs the exception, and leaves the
    directory and the ledger as they were. *)
Theorem transport_error_isolated (tg : Transport) (message : Message) (user : User)
    (reply_markup : option string) (lk : Lookup) (e : Exn) (w : World) :
  resolve_reply message (user_id user) w = Ret lk w ->
  copy_message tg (user_id user) (from_user_id message) (message_id message) lk = inl e ->
  e <> BotBlocked -> e <> UserDeactivated ->
  send_msg tg message user reply_markup w
  = Ret tt (add_trace [CopyMessage (user_id user) (from_user_id message)
                                   (message_id message) reply_markup lk;
                       LogException e] w).
Proof.
  intros Hlk Hcopy H1 H2.
  destruct (send_msg_spec tg message user reply_markup w) as (lk' & Hlk' & Hs).
  rewrite Hlk in Hlk'. injection Hlk' as <-.
  rewrite Hs. unfold after_send. rewrite Hcopy.
  unfold add_trace, emit. cbn [trace users settings cooldown sent_messages clock].
  destruct e; try contradiction; rewrite <- app_assoc; reflexivity.
Qed.

Lemma transport_error_isolated_witness :
  let tg := mkTransport (fun _ _ _ _ => inl OtherError) (fun _ _ => None)
                        (fun _ _ => None) in
  send_msg tg scenario_message (mkUser 2 false false) None scenario_world
  = Ret tt (add_trace [CopyMessage 2 1 10 None NotFound; LogException OtherError]
                      scenario_world).
Proof.
  apply (transport_error_isolated
           (mkTransport (fun _ _ _ _ => inl OtherError) (fun _ _ => None)
                        (fun _ _ => None))
           scenario_message (mkUser 2 false false) None NotFound OtherError
           scenario_world).
  - reflexivity.
  - reflexivity.
  - discriminate.
  - discriminate.
Defined.

(** ** More on admission *)

Lemma text_handler_privileged (tg : Transport) (message : Message) (w : World) :
  is_admin (from_user_id message) w = Ret true w
  \/ is_vip (from_user_id message) w = Ret true w ->
  text_handler tg message w = broadcast_message tg message w.
Proof.
  intros H. unfold text_handler.
  rewrite (bind_Ret _ _ w w _ (is_admin_reads _ w)).
  rewrite is_admin_reads in H.
  destruct (match find_one (by_user_id (from_user_id message)) (users w) with
            | Some u => admin u
            | None => false
            end).
  - reflexivity.
  - destruct H as [H|H]; [discriminate|].
    rewrite (bind_Ret _ _ w w true H). reflexivity.
Qed.

Lemma privileged_registered (id : Z) (w : World) :
  is_admin id w = Ret true w \/ is_vip id w = Ret true w ->
  exists u, find_one (by_user_id id) (users w) = Some u.
Proof.
  rewrite is_admin_reads, is_vip_reads.
  destruct (find_one (by_user_id id) (users w)) as [u|]; [eauto|].
  intros [H|H]; discriminate.
Qed.

(** X8: a message of an admin or VIP goes straight to the broadcast: the
    cooldown records are neither consulted nor written, so the message is
    relayed also when the sender's cooldown record lies in the future. *)
Theorem privileged_bypass_cooldown (tg : Transport) (message : Message) (w : World) :
  is_admin (from_user_id message) w = Ret true w
  \/ is_vip (from_user_id message) w = Ret true w ->
  exists w' t,
    text_handler tg message w = Ret tt w'
    /\ cooldown w' = cooldown w
    /\ trace w' = trace w ++ t ++ [Reply (from_user_id message)
                                         (SentToUsers (List.length (users w)))]
    /\ map chat_of (List.filter is_copy t) = map user_id (users w).
Proof.
  intros H. rewrite (text_handler_privileged tg message w H).
  destruct (privileged_registered _ w H) as (u & Hu).
  destruct (broadcast_message_more tg message u w Hu)
    as (mk & w1 & w' & t & _ & Hrun & Ht & Hc & _ & _ & Hcd & _).
  exists w', t. repeat split; assumption.
Qed.

Lemma privileged_bypass_cooldown_witness :
  let w := at_time 5 (final (ban_handler ban_command ban_world)) in
  let w0 := final (vip_handler 1 (fun _ => None) (mkMessage 1 None 62 None "2" "/vip 2") w) in
  let message := mkMessage 2 None 30 None "" "hello" in
  exists w' t,
    text_handler scenario_transport message w0 = Ret tt w'
    /\ cooldown w' = cooldown w0
    /\ trace w' = trace w0 ++ t ++ [Reply 2 (SentToUsers (List.length (users w0)))]
    /\ map chat_of (List.filter is_copy t) = map user_id (users w0).
Proof.
  apply (privileged_bypass_cooldown scenario_transport
           (mkMessage 2 None 30 None "" "hello")
           (final (vip_handler 1 (fun _ => None) (mkMessage 1 None 62 None "2" "/vip 2")
                     (at_time 5 (final (ban_handler ban_command ban_world)))))).
  right. reflexivity.
Defined.

(** X9: after a message of a registered user without privileges has been
    admitted at clock [t], the user's cooldown record holds [t] rounded
    down to whole milliseconds; as long as that record stands and the user
    has no privileges, a further message is answered with the request to
    wait while less than 60 seconds have passed since the recorded time,
    and passes the cooldown check from 60 seconds after it on. *)
Theorem readmission_after_a_minute (tg : Transport) (message : Message) (user : User)
    (w : World) :
  let uid := from_user_id message in
  find_one (by_user_id uid) (users w) = Some user ->
  admin user = false -> vip user = false ->
  cooldown_elapsed uid w ->
  exists w',
    text_handler tg message w = Ret tt w'
    /\ find_one (by_cooldown_user uid) (cooldown w')
       = Some (mkCooldown uid (floor_ms (clock w)))
    /\ forall later next,
         from_user_id next = uid ->
         find_one (by_cooldown_user uid) (cooldown later)
         = find_one (by_cooldown_user uid) (cooldown w') ->
         is_admin uid later = Ret false later ->
         is_vip uid later = Ret false later ->
         (clock later - floor_ms (clock w) < timedelta_seconds 60 ->
          text_handler tg next later = Ret tt (emit (Reply uid PleaseWait) later))
         /\ (timedelta_seconds 60 <= clock later - floor_ms (clock w) ->
             cooldown_check uid later = Ret true later).
Proof.
  intros uid Hu Ha Hv He.
  assert (Hadm : is_admin uid w = Ret false w)
    by (rewrite is_admin_reads, Hu, Ha; reflexivity).
  assert (Hvip : is_vip uid w = Ret false w)
    by (rewrite is_vip_reads, Hu, Hv; reflexivity).
  destruct (cooldown_check_spec uid w) as [[_ Hc] | [Hn _]]; [|contradiction].
  destruct (cooldown_set_spec uid (clock w) w)
    as (w1 & Hset & Hfind & Hus & _ & _ & Hk & _).
  assert (Hu1 : find_one (by_user_id (from_user_id message)) (users w1) = Some user)
    by (rewrite Hus; exact Hu).
  destruct (broadcast_message_more tg message user w1 Hu1)
    as (mk & w2 & w' & t & _ & Hrun & _ & _ & _ & _ & Hcd & _).
  exists w'. split; [|split].
  - rewrite (text_handler_non_privileged tg message w Hadm Hvip).
    fold uid. rewrite (bind_Ret _ _ w w true Hc).
    rewrite (bind_Ret _ _ w w1 tt) by exact Hset.
    exact Hrun.
  - rewrite Hcd. exact Hfind.
  - intros later next Hnext Hsame Hadm' Hvip'.
    rewrite Hcd, Hfind in Hsame.
    assert (Hel : cooldown_elapsed uid later
                  <-> timedelta_seconds 60 <= clock later - floor_ms (clock w)).
    { unfold cooldown_elapsed. rewrite Hsame. simpl. reflexivity. }
    destruct (cooldown_check_spec uid later) as [[He' Hc'] | [He' Hc']].
    + split; [|intros _; exact Hc'].
      intros Hlt. apply Hel in He'. lia.
    + split; [|intros Hge; apply Hel in Hge; contradiction].
      intros _. rewrite <- Hnext in *.
      rewrite text_handler_non_privileged by assumption.
      rewrite (bind_Ret _ _ later later false Hc'). reflexivity.
Qed.

Lemma readmission_after_a_minute_witness :
  let w := mkWorld [mkUser 7 false false] [] [] [] 1999 [] in
  let message := mkMessage 7 None 10 None "" "hello" in
  exists w',
    text_handler scenario_transport message w = Ret tt w'
    /\ find_one (by_cooldown_user 7) (cooldown w')
       = Some (mkCooldown 7 (floor_ms (clock w)))
    /\ forall later next,
         from_user_id next = 7 ->
         find_one (by_cooldown_user 7) (cooldown later)
         = find_one (by_cooldown_user 7) (cooldown w') ->
         is_admin 7 later = Ret false later ->
         is_vip 7 later = Ret false later ->
         (clock later - floor_ms (clock w) < timedelta_seconds 60 ->
          text_handler scenario_transport next later
          = Ret tt (emit (Reply 7 PleaseWait) later))
         /\ (timedelta_seconds 60 <= clock later - floor_ms (clock w) ->
             cooldown_check 7 later = Ret true later).
Proof.
  apply (readmission_after_a_minute scenario_transport
           (mkMessage 7 None 10 None "" "hello") (mkUser 7 false false)
           (mkWorld [mkUser 7 false false] [] [] [] 1999 [])).
  - reflexivity.
  - reflexivity.
  - reflexivity.
  - simpl. exact I.
Defined.

(** ** Registration *)





(** ** More on ban and unban *)

Lemma unban_loop_cons (message : Message) (msg : SentMessage) (msgs : list SentMessage)
    (uid0 : Z) (w : World) :
  unban_loop message (msg :: msgs) uid0 w
  = match find_one (by_user_id (from_user_id message)) (users w) with
    | Some issuer =>
        if admin issuer then
          match find_one (by_user_id (sender_id msg)) (users w) with
          | Some _ =>
              bind (cooldown_set (sender_id msg) (clock w - timedelta_seconds 60))
                   (fun _ => unban_loop message msgs (sender_id msg)) w
          | None => Raise TypeError w
          end
        else Ret None (emit (Reply (from_user_id message) NoRightsUnban) w)
    | None => Ret None (emit (Reply (from_user_id message) NoRightsUnban) w)
    end.
Proof.
  cbn [unban_loop].
  rewrite (bind_Ret _ _ w w _ (is_admin_reads _ w)).
  destruct (find_one (by_user_id (from_user_id message)) (users w)) as [issuer|];
    [destruct (admin issuer)|]; try reflexivity.
  cbn [negb].
  unfold users_find_one at 1, bind at 1, gets at 1.
  destruct (find_one (by_user_id (sender_id msg)) (users w)) as [user|];
    reflexivity.
Qed.

Lemma unban_loop_spec (message : Message) (msgs : list SentMessage) :
  forall uid0 w res w',
    unban_loop message msgs uid0 w = Ret res w' ->
    clock w' = clock w /\ users w' = users w
    /\ match res with
       | None => trace w' = trace w ++ [Reply (from_user_id message) NoRightsUnban]
       | Some u =>
           trace w' = trace w
           /\ ((msgs = [] /\ u = uid0 /\ w' = w) \/ unbanned u (clock w) w')
       end.
Proof.
  induction msgs as [|msg msgs IH]; intros uid0 w res w' H.
  - injection H as <- <-. repeat split. left. repeat split.
  - rewrite unban_loop_cons in H.
    assert (Hdenied : Ret None (emit (Reply (from_user_id message) NoRightsUnban) w)
                      = Ret res w' ->
                      clock w' = clock w /\ users w' = users w
                      /\ match res with
                         | None => trace w' = trace w
                                     ++ [Reply (from_user_id message) NoRightsUnban]
                         | Some u => trace w' = trace w
                                     /\ ((msg :: msgs = [] /\ u = uid0 /\ w' = w)
                                         \/ unbanned u (clock w) w')
                         end).
    { intros E. injection E as <- <-. repeat split. }
    destruct (find_one (by_user_id (from_user_id message)) (users w)) as [issuer|];
      [|auto].
    destruct (admin issuer); [|auto].
    destruct (find_one (by_user_id (sender_id msg)) (users w)) as [user|];
      [|discriminate].
    destruct (cooldown_set_spec (sender_id msg) (clock w - timedelta_seconds 60) w)
      as (w1 & Hset & Hfind & Hus & _ & _ & Hk & Ht).
    rewrite (bind_Ret _ _ w w1 tt Hset) in H.
    apply IH in H. destruct H as (Hc' & Hu' & Hres).
    split; [congruence|]. split; [congruence|].
    destruct res as [u|].
    + destruct Hres as (Ht' & Hcase). split; [congruence|].
      right. destruct Hcase as [(_ & -> & ->) | Hb'].
      * exact Hfind.
      * rewrite <- Hk. exact Hb'.
    + congruence.
Qed.

(** X11: when [unban_handler] has answered that [u] was unbanned at clock
    [t], the cooldown record of [u] holds [t] minus 60 seconds, rounded down
    to whole milliseconds, so [u] passes the cooldown check at every clock
    from [t] on while that record stands; the directory is left as it was,
    so privileges a ban took away are not given back. *)
Theorem unban_makes_eligible (message : Message) (u : Z) (w w' : World) :
  unban_handler message w = Ret tt w' ->
  trace w' = trace w ++ [Reply (from_user_id message) (Unbanned u)] ->
  unbanned u (clock w) w'
  /\ users w' = users w
  /\ forall later,
       find_one (by_cooldown_user u) (cooldown later)
       = find_one (by_cooldown_user u) (cooldown w') ->
       clock w <= clock later ->
       cooldown_check u later = Ret true later.
Proof.
  unfold unban_handler. intros H Ht.
  destruct (reply_to_message message) as [r|].
  2:{ injection H as <-. exfalso. exact (trace_grew_by_one _ _ Ht). }
  destruct (replied_records_reads r w) as (msgs & Hm).
  rewrite (bind_Ret _ _ w w msgs Hm) in H.
  destruct (unban_loop message msgs 0 w) as [res w1|e w1] eqn:Hloop.
  2:{ rewrite (bind_Raise _ _ w w1 e Hloop) in H. discriminate. }
  rewrite (bind_Ret _ _ w w1 res Hloop) in H.
  apply unban_loop_spec in Hloop. destruct Hloop as (Hc & Hus & Hres).
  destruct res as [uid|].
  - destruct Hres as (Ht1 & Hcase).
    destruct (uid =? 0) eqn:E; cbn [negb] in H; injection H as <-;
      simpl in Ht; rewrite Ht1 in Ht; apply app_inv_head in Ht;
      [discriminate|].
    injection Ht as ->.
    destruct Hcase as [(_ & -> & _) | Hb]; [discriminate|].
    split; [exact Hb|]. split; [exact Hus|].
    intros later Hsame Hle.
    unfold unbanned in Hb. cbn [cooldown emit] in Hsame. rewrite Hb in Hsame.
    destruct (cooldown_check_spec u later) as [[_ Hck] | [Hn _]]; [exact Hck|].
    exfalso. apply Hn. unfold cooldown_elapsed. rewrite Hsame. cbn [sent_at].
    pose proof (floor_ms_bounds (clock w - timedelta_seconds 60)). lia.
  - injection H as <-. rewrite Hres in Ht. apply app_inv_head in Ht. discriminate.
Qed.

Lemma unban_makes_eligible_witness :
  let w := at_time 5 (final (ban_handler ban_command ban_world)) in
  let w' := final (unban_handler ban_command w) in
  unbanned 2 (clock w) w'
  /\ users w' = users w
  /\ forall later,
       find_one (by_cooldown_user 2) (cooldown later)
       = find_one (by_cooldown_user 2) (cooldown w') ->
       clock w <= clock later ->
       cooldown_check 2 later = Ret true later.
Proof.
  apply (unban_makes_eligible ban_command 2
           (at_time 5 (final (ban_handler ban_command ban_world)))
           (final (unban_handler ban_command
                     (at_time 5 (final (ban_handler ban_command ban_world)))))).
  - reflexivity.
  - reflexivity.
Defined.

(** X12: [/ban] and [/unban] from a user whose directory entry does not
    carry the admin flag write nothing: when the replied-to message
    resolves to a record the issuer is told that they have no right, and
    the directory, the cooldown records and the ledger stay as they
    were. *)
Theorem ban_needs_admin (message : Message) (r : ReplyTo) (first : SentMessage)
    (rest : list SentMessage) (w : World) :
  is_admin (from_user_id message) w = Ret false w ->
  reply_to_message message = Some r ->
  replied_records r w = Ret (first :: rest) w ->
  ban_handler message w
  = Ret tt (emit (Reply (from_user_id message) NoRightsBan) w)
  /\ unban_handler message w
     = Ret tt (emit (Reply (from_user_id message) NoRightsUnban) w).
Proof.
  intros Hadm Hr Hm.
  rewrite is_admin_reads in Hadm. injection Hadm as Hadm.
  unfold ban_handler, unban_handler. rewrite Hr.
  rewrite !(bind_Ret _ _ w w _ Hm).
  split.
  - rewrite (bind_Ret _ _ w (emit (Reply (from_user_id message) NoRightsBan) w) None).
    + reflexivity.
    + rewrite ban_loop_cons.
      destruct (find_one (by_user_id (from_user_id message)) (users w)) as [i|];
        [rewrite Hadm|]; reflexivity.
  - rewrite (bind_Ret _ _ w (emit (Reply (from_user_id message) NoRightsUnban) w) None).
    + reflexivity.
    + rewrite unban_loop_cons.
      destruct (find_one (by_user_id (from_user_id message)) (users w)) as [i|];
        [rewrite Hadm|]; reflexivity.
Qed.

Lemma ban_needs_admin_witness :
  let message := mkMessage 5 None 72 (Some (mkReplyTo 70 true)) "" "/ban" in
  ban_handler message delete_world = Ret tt (emit (Reply 5 NoRightsBan) delete_world)
  /\ unban_handler message delete_world
     = Ret tt (emit (Reply 5 NoRightsUnban) delete_world).
Proof.
  apply (ban_needs_admin (mkMessage 5 None 72 (Some (mkReplyTo 70 true)) "" "/ban")
           (mkReplyTo 70 true) (mkSentMessage 4 70 5 70 40) [] delete_world).
  - reflexivity.
  - reflexivity.
  - reflexivity.
Defined.

(** X13: a sender who is no longer in the directory cannot be banned or
    unbanned: when the first record the replied-to message resolves to
    names such a sender, the handlers of an admin raise [TypeError] before
    anything is written, and the admin gets no reply. *)
Theorem ban_of_pruned_sender_raises (message : Message) (r : ReplyTo)
    (first : SentMessage) (rest : list SentMessage) (w : World) :
  is_admin (from_user_id message) w = Ret true w ->
  reply_to_message message = Some r ->
  replied_records r w = Ret (first :: rest) w ->
  find_one (by_user_id (sender_id first)) (users w) = None ->
  ban_handler message w = Raise TypeError w
  /\ unban_handler message w = Raise TypeError w.
Proof.
  intros Hadm Hr Hm Hs.
  rewrite is_admin_reads in Hadm. injection Hadm as Hadm.
  unfold ban_handler, unban_handler. rewrite Hr.
  rewrite !(bind_Ret _ _ w w _ Hm).
  destruct (find_one (by_user_id (from_user_id message)) (users w)) as [i|] eqn:Hi;
    [|discriminate].
  split; apply bind_Raise.
  - rewrite ban_loop_cons, Hi, Hadm, Hs. reflexivity.
  - rewrite unban_loop_cons, Hi, Hadm, Hs. reflexivity.
Qed.

Lemma ban_of_pruned_sender_raises_witness :
  let w := mkWorld [mkUser 1 true false] [] [] [mkSentMessage 2 60 1 60 20] 0 [] in
  ban_handler ban_command w = Raise TypeError w
  /\ unban_handler ban_command w = Raise TypeError w.
Proof.
  apply (ban_of_pruned_sender_raises ban_command (mkReplyTo 60 true)
           (mkSentMessage 2 60 1 60 20) []
           (mkWorld [mkUser 1 true false] [] [] [mkSentMessage 2 60 1 60 20] 0 [])).
  - reflexivity.
  - reflexivity.
  - reflexivity.
  - reflexivity.
Defined.

(** ** Settings *)

Lemma find_one_snoc {A} (p : A -> bool) (l : list A) (x : A) :
  find_one p l = None -> find_one p (l ++ [x]) = if p x then Some x else None.
Proof.
  unfold find_one. induction l as [|y l IH]; simpl; [reflexivity|].
  destruct (p y); [discriminate | exact IH].
Qed.

Lemma find_one_snoc_other {A} (p : A -> bool) (l : list A) (x : A) :
  p x = false -> find_one p (l ++ [x]) = find_one p l.
Proof.
  intros Hx. unfold find_one. induction l as [|y l IH]; simpl.
  - rewrite Hx. reflexivity.
  - destruct (p y); [reflexivity | exact IH].
Qed.

Lemma get_settings_spec (id : Z) (w : World) :
  exists s w1,
    get_settings id w = Ret s w1
    /\ find_one (by_settings_user id) (settings w1) = Some s
    /\ settings_user_id s = id
    /\ (find_one (by_settings_user id) (settings w) = Some s /\ w1 = w
        \/ find_one (by_settings_user id) (settings w) = None
           /\ s = mkSettings id false
           /\ w1 = with_settings (insert_one s) w).
Proof.
  unfold get_settings.
  rewrite (bind_gets (fun w => find_one (fun s => settings_user_id s =? id) (settings w))).
  change (fun s => settings_user_id s =? id) with (by_settings_user id).
  destruct (find_one (by_settings_user id) (settings w)) as [s|] eqn:E.
  - exists s, w. repeat split; auto.
    apply find_one_holds in E. apply Z.eqb_eq. exact E.
  - exists (mkSettings id false), (with_settings (insert_one (mkSettings id false)) w).
    split; [reflexivity|]. split; [|split; [reflexivity | right; repeat split]].
    cbn [settings with_settings]. unfold insert_one.
    rewrite (find_one_snoc _ _ _ E). unfold by_settings_user. simpl.
    rewrite Z.eqb_refl. reflexivity.
Qed.

Lemma get_settings_found (id : Z) (s : Settings) (w : World) :
  find_one (by_settings_user id) (settings w) = Some s -> get_settings id w = Ret s w.
Proof.
  intros E. unfold get_settings.
  rewrite (bind_gets (fun w => find_one (fun s => settings_user_id s =? id) (settings w))).
  change (fun s => settings_user_id s =? id) with (by_settings_user id).
  rewrite E. reflexivity.
Qed.

(** X14: [get_settings] creates the settings of a user on first access,
    with the nickname hidden, and only then: the document it returns is the
    one stored for the user afterwards, a second call returns the same
    document and writes nothing, and the settings of other users are not
    touched. *)
Theorem get_settings_creates_once (id : Z) (w : World) :
  exists s w1,
    get_settings id w = Ret s w1
    /\ settings_user_id s = id
    /\ (find_one (by_settings_user id) (settings w) = None ->
        show_nickname_inline s = false /\ settings w1 = settings w ++ [s])
    /\ (forall s0, find_one (by_settings_user id) (settings w) = Some s0 ->
                   s = s0 /\ w1 = w)
    /\ get_settings id w1 = Ret s w1
    /\ (forall other, other <> id ->
          find_one (by_settings_user other) (settings w1)
          = find_one (by_settings_user other) (settings w)).
Proof.
  destruct (get_settings_spec id w) as (s & w1 & Hg & Hf & Hid & Hcase).
  exists s, w1. split; [exact Hg|]. split; [exact Hid|].
  split; [|split; [|split]].
  - intros Hn. destruct Hcase as [(E & _) | (_ & -> & ->)]; [congruence|].
    split; reflexivity.
  - intros s0 Hs0. destruct Hcase as [(E & ->) | (E & _)]; [|congruence].
    split; congruence.
  - apply get_settings_found. exact Hf.
  - intros other Hne. destruct Hcase as [(_ & ->) | (_ & -> & ->)]; [reflexivity|].
    cbn [settings with_settings]. unfold insert_one.
    apply find_one_snoc_other. unfold by_settings_user. simpl.
    apply Z.eqb_neq. congruence.
Qed.

Lemma find_one_update_one {A} (p : A -> bool) (f : A -> A) (c : list A) :
  (forall x, p x = true -> p (f x) = true) ->
  find_one p (update_one p f c) = option_map f (find_one p c).
Proof.
  intros Hf. unfold find_one. induction c as [|x c IH]; simpl; [reflexivity|].
  destruct (p x) eqn:E; simpl.
  - rewrite (Hf x E). reflexivity.
  - rewrite E. exact IH.
Qed.

Lemma find_one_update_other {A} (p q : A -> bool) (f : A -> A) (c : list A) :
  (forall x, p x = true -> q x = false /\ q (f x) = false) ->
  find_one q (update_one p f c) = find_one q c.
Proof.
  intros Hp. unfold find_one. induction c as [|x c IH]; simpl; [reflexivity|].
  destruct (p x) eqn:E; simpl.
  - destruct (Hp x E) as [-> ->]. reflexivity.
  - destruct (q x); [reflexivity | exact IH].
Qed.

Lemma settings_toggle_spec (id : Z) (data : string) (w : World) :
  settings_callback_filter data = true ->
  exists s w1 w',
    get_settings id w = Ret s w1
    /\ settings_callback_handler id data w
       = Ret (mkInlineButton (negb (show_nickname_inline s))
                             "toggle_show_nickname_inline") w'
    /\ find_one (by_settings_user id) (settings w')
       = Some (mkSettings id (negb (show_nickname_inline s)))
    /\ (forall other, other <> id ->
          find_one (by_settings_user other) (settings w')
          = find_one (by_settings_user other) (settings w))
    /\ users w' = users w /\ cooldown w' = cooldown w
    /\ sent_messages w' = sent_messages w /\ trace w' = trace w.
Proof.
  intros Hfilter. apply String.eqb_eq in Hfilter. subst data.
  destruct (get_settings_creates_once id w) as (s & w1 & Hg & Hid & _ & _ & Hg1 & Ho).
  destruct (get_settings_spec id w) as (s' & w1' & Hg' & Hf & _ & Hcase).
  rewrite Hg in Hg'. injection Hg' as <- <-.
  set (w2 := with_settings
               (update_one (by_settings_user id)
                  (set_field "show_nickname_inline" (negb (show_nickname_inline s)))) w1).
  assert (Hf2 : find_one (by_settings_user id) (settings w2)
                = Some (mkSettings id (negb (show_nickname_inline s)))).
  { unfold w2. cbn [settings with_settings].
    rewrite find_one_update_one, Hf; [unfold set_field; simpl; rewrite Hid; reflexivity|].
    intros x Hx. exact Hx. }
  exists s, w1, w2. split; [exact Hg|]. split; [|split; [exact Hf2|split]].
  - unfold settings_callback_handler.
    rewrite (bind_Ret _ _ w w1 s Hg).
    cbn [py_slice_from settings_item String.eqb Ascii.eqb Bool.eqb andb].
    rewrite (bind_Ret _ _ w1 w2 tt) by reflexivity.
    rewrite (bind_Ret _ _ w2 w2 _ (get_settings_found id _ w2 Hf2)).
    reflexivity.
  - intros other Hne. unfold w2. cbn [settings with_settings].
    rewrite find_one_update_other; [apply Ho; exact Hne|].
    intros x Hx. unfold by_settings_user in *. apply Z.eqb_eq in Hx.
    simpl. split; apply Z.eqb_neq; congruence.
  - unfold w2.
    destruct Hcase as [(_ & ->) | (_ & _ & ->)]; repeat split.
Qed.

(** X15: a press on the settings button flips the user's
    [show_nickname_inline] (created hidden on first use), shows the new
    state on the button, and touches neither the settings of other users
    nor the directory, the ledger or the cooldown records; a second press
    brings the setting back to what it was. *)
Theorem settings_toggle (id : Z) (data : string) (w : World) :
  settings_callback_filter data = true ->
  exists s w1 w' w'',
    get_settings id w = Ret s w1
    /\ settings_callback_handler id data w
       = Ret (mkInlineButton (negb (show_nickname_inline s))
                             "toggle_show_nickname_inline") w'
    /\ find_one (by_settings_user id) (settings w')
       = Some (mkSettings id (negb (show_nickname_inline s)))
    /\ (forall other, other <> id ->
          find_one (by_settings_user other) (settings w')
          = find_one (by_settings_user other) (settings w))
    /\ users w' = users w /\ cooldown w' = cooldown w
    /\ sent_messages w' = sent_messages w
    /\ settings_callback_handler id data w'
       = Ret (mkInlineButton (show_nickname_inline s) "toggle_show_nickname_inline") w''
    /\ find_one (by_settings_user id) (settings w'')
       = Some (mkSettings id (show_nickname_inline s)).
Proof.
  intros Hfilter.
  destruct (settings_toggle_spec id data w Hfilter)
    as (s & w1 & w' & Hg & Hrun & Hf & Ho & Hu & Hc & Hm & _).
  destruct (settings_toggle_spec id data w' Hfilter)
    as (s' & w1' & w'' & Hg' & Hrun' & Hf' & _).
  rewrite (get_settings_found id _ w' Hf) in Hg'. injection Hg' as <- <-.
  cbn [show_nickname_inline] in Hrun', Hf'. rewrite negb_involutive in Hrun', Hf'.
  exists s, w1, w', w''. repeat split; assumption.
Qed.

Lemma settings_toggle_witness :
  exists s w1 w' w'',
    get_settings 3 scenario_world = Ret s w1
    /\ settings_callback_handler 3 "toggle_show_nickname_inline" scenario_world
       = Ret (mkInlineButton (negb (show_nickname_inline s))
                             "toggle_show_nickname_inline") w'
    /\ find_one (by_settings_user 3) (settings w')
       = Some (mkSettings 3 (negb (show_nickname_inline s)))
    /\ (forall other, other <> 3 ->
          find_one (by_settings_user other) (settings w')
          = find_one (by_settings_user other) (settings scenario_world))
    /\ users w' = users scenario_world /\ cooldown w' = cooldown scenario_world
    /\ sent_messages w' = sent_messages scenario_world
    /\ settings_callback_handler 3 "toggle_show_nickname_inline" w'
       = Ret (mkInlineButton (show_nickname_inline s) "toggle_show_nickname_inline") w''
    /\ find_one (by_settings_user 3) (settings w'')
       = Some (mkSettings 3 (show_nickname_inline s)).
Proof.
  apply (settings_toggle 3 "toggle_show_nickname_inline" scenario_world).
  reflexivity.
Defined.

Lemma sender_markup_value (message : Message) (user : User) (w w1 : World)
    (mk : option string) :
  sender_markup message user w = Ret mk w1 ->
  mk = match find_one (by_settings_user (user_id user)) (settings w) with
       | Some s => if show_nickname_inline s then Some (nickname_button message user)
                   else None
       | None => None
       end.
Proof.
  unfold sender_markup.
  destruct (get_settings_spec (user_id user) w) as (s & w0 & Hg & _ & _ & Hcase).
  rewrite (bind_Ret _ _ w w0 s Hg).
  destruct Hcase as [(E & _) | (E & -> & _)]; rewrite E.
  - destruct (show_nickname_inline s); intros H; injection H as <- _; reflexivity.
  - cbn [show_nickname_inline]. intros H; injection H as <- _; reflexivity.
Qed.

(** X16: the relay is anonymous unless the sender chose otherwise: the
    copies of a broadcast carry the button with the sender's nickname
    exactly when the sender's settings have [show_nickname_inline] set, and
    no button when the setting is off or the sender has no settings yet. *)
Theorem nickname_only_if_set (tg : Transport) (message : Message) (user : User)
    (w : World) :
  find_one (by_user_id (from_user_id message)) (users w) = Some user ->
  exists w' t,
    broadcast_message tg message w = Ret tt w'
    /\ trace w' = trace w ++ t ++ [Reply (from_user_id message)
                                         (SentToUsers (List.length (users w)))]
    /\ Forall (fun e =>
         is_copy e = true ->
         markup_of e
         = match find_one (by_settings_user (user_id user)) (settings w) with
           | Some s => if show_nickname_inline s
                       then Some (nickname_button message user) else None
           | None => None
           end) t.
Proof.
  intros Hu.
  destruct (broadcast_message_more tg message user w Hu)
    as (mk & w1 & w' & t & Hmk & Hrun & Ht & _ & Hm & _).
  apply sender_markup_value in Hmk. subst mk.
  exists w', t. repeat split; assumption.
Qed.

Lemma nickname_only_if_set_witness :
  exists w' t,
    broadcast_message scenario_transport scenario_message scenario_world = Ret tt w'
    /\ trace w' = trace scenario_world ++ t ++ [Reply 1 (SentToUsers 3)]
    /\ Forall (fun e =>
         is_copy e = true ->
         markup_of e
         = match find_one (by_settings_user 1) (settings scenario_world) with
           | Some s => if show_nickname_inline s
                       then Some (nickname_button scenario_message (mkUser 1 true false))
                       else None
           | None => None
           end) t.
Proof.
  apply (nickname_only_if_set scenario_transport scenario_message (mkUser 1 true false)
           scenario_world).
  reflexivity.
Defined.

(** ** More on the ledger *)

Lemma find_one_in {A} (p : A -> bool) (l : list A) (x : A) :
  find_one p l = Some x -> In x l /\ p x = true.
Proof.
  unfold find_one. apply find_some.
Qed.

Lemma find_one_none {A} (p : A -> bool) (l : list A) (x : A) :
  find_one p l = None -> In x l -> p x = false.
Proof.
  unfold find_one. intros H Hin. exact (List.find_none p l H x Hin).
Qed.

(** X17: what [get_sent_message_id] finds is in the ledger. When it
    returns a message id, some record of the requested recipient has that
    id as its [receiver_message_id] and matches the key that was used: the
    sender message id when one was given, whatever the original message id
    was, and the original message id otherwise. When it returns nothing for
    a recipient, no record of that recipient matches the key that was
    used. *)
Theorem get_sent_message_id_sound (a b c : option Z) (w : World) :
  (forall id,
     get_sent_message_id a b c w = Ret (FoundId id) w ->
     truthy c = true
     /\ exists r, In r (sent_messages w)
          /\ receiver_message_id r = id /\ receiver_id r = val c
          /\ (truthy a = true /\ sender_message_id r = val a
              \/ truthy a = false /\ truthy b = true /\ original_message_id r = val b))
  /\ (get_sent_message_id a b c w = Ret NotFound w ->
      truthy c = true ->
      forall r, In r (sent_messages w) -> receiver_id r = val c ->
        (truthy a = true -> sender_message_id r <> val a)
        /\ (truthy a = false -> truthy b = true -> original_message_id r <> val b)).
Proof.
  unfold get_sent_message_id.
  destruct (truthy a) eqn:Ha; [|destruct (truthy b) eqn:Hb];
    destruct (truthy c) eqn:Hc; run;
    try (match goal with |- context [find_one ?p ?l] =>
           destruct (find_one p l) as [r0|] eqn:E end);
    split; try discriminate.
  all: try (intros id H; injection H as <-; split; [reflexivity|];
            apply find_one_in in E; destruct E as [Hin Hp];
            apply andb_prop in Hp; destruct Hp as [H1 H2];
            apply Z.eqb_eq in H1; apply Z.eqb_eq in H2;
            exists r0; repeat split; auto; fail).
  all: try (intros _ _ r Hin Hr; split; try discriminate; intros; intros Hk;
            apply (find_one_none _ _ r E) in Hin;
            rewrite Hr, Hk, !Z.eqb_refl in Hin; discriminate).
  all: try (intros _ H; discriminate H).
  all: intros _ _ r Hin Hr; split; discriminate.
Qed.

(** X18: what the fan-out writes, reply resolution finds. After the copy
    of message [m] for recipient [u] succeeded with id [id], and provided
    the ledger held no record of [u] for that original or under that copy
    id before, a reply to the original [m] by its sender resolves for [u]
    to [id], and a reply to the copy [id] resolves for [u] to [id] as
    well. The ids have to be non-zero, zero being read as absent. *)
Theorem copy_then_reply_resolves (tg : Transport) (message : Message) (user : User)
    (reply_markup : option string) (lk : Lookup) (id : Z) (w : World) :
  user_id user <> 0 -> message_id message <> 0 -> id <> 0 ->
  resolve_reply message (user_id user) w = Ret lk w ->
  copy_message tg (user_id user) (from_user_id message) (message_id message) lk = inr id ->
  (forall r, In r (sent_messages w) -> receiver_id r = user_id user ->
             original_message_id r <> message_id message /\ sender_message_id r <> id) ->
  exists w',
    send_msg tg message user reply_markup w = Ret tt w'
    /\ forall reply,
         (reply_to_message reply = Some (mkReplyTo (message_id message) false) ->
          resolve_reply reply (user_id user) w' = Ret (FoundId id) w')
         /\ (reply_to_message reply = Some (mkReplyTo id true) ->
             resolve_reply reply (user_id user) w' = Ret (FoundId id) w').
Proof.
  intros Hu Hm Hid Hlk Hcopy Hfresh.
  destruct (send_msg_spec tg message user reply_markup w) as (lk' & Hlk' & Hs).
  rewrite Hlk in Hlk'. injection Hlk' as <-.
  eexists. split; [exact Hs|].
  unfold after_send. rewrite Hcopy.
  apply Z.eqb_neq in Hu, Hm, Hid.
  intros reply. split; intros Hr; unfold resolve_reply; rewrite Hr;
    cbn [reply_from_is_bot reply_message_id];
    unfold get_sent_message_id; cbn [truthy negb val];
    rewrite ?Hu, ?Hm, ?Hid; cbn [negb]; run; unfold insert_one.
  - rewrite find_one_snoc.
    + simpl. rewrite !Z.eqb_refl. reflexivity.
    + apply find_none. intros y Hy.
      destruct (receiver_id y =? user_id user) eqn:E; [|reflexivity].
      apply Z.eqb_eq in E. destruct (Hfresh y Hy E) as [Ho _].
      apply Z.eqb_neq in Ho. rewrite Ho. reflexivity.
  - rewrite find_one_snoc.
    + simpl. rewrite !Z.eqb_refl. reflexivity.
    + apply find_none. intros y Hy.
      destruct (receiver_id y =? user_id user) eqn:E; [|apply andb_false_r].
      apply Z.eqb_eq in E. destruct (Hfresh y Hy E) as [_ Hsm].
      apply Z.eqb_neq in Hsm. rewrite Hsm. reflexivity.
Qed.

Lemma copy_then_reply_resolves_witness :
  exists w',
    send_msg scenario_transport scenario_message (mkUser 3 false false) None scenario_world
    = Ret tt w'
    /\ forall reply,
         (reply_to_message reply = Some (mkReplyTo 10 false) ->
          resolve_reply reply 3 w' = Ret (FoundId 103) w')
         /\ (reply_to_message reply = Some (mkReplyTo 103 true) ->
             resolve_reply reply 3 w' = Ret (FoundId 103) w').
Proof.
  apply (copy_then_reply_resolves scenario_transport scenario_message
           (mkUser 3 false false) None NotFound 103 scenario_world).
  - simpl. lia.
  - simpl. lia.
  - lia.
  - reflexivity.
  - reflexivity.
  - simpl. intros r [<-|[]]. simpl. lia.
Defined.

(** X19: [get_sent_messages] returns what [save_sent_message] wrote, up
    to its limit: after any sequence of calls, the records found for a
    sender and an original message are the first 10000 of those that
    matched before followed by the saved ones for that sender and original,
    in the order of the calls; all of them when they are at most 10000. *)
Theorem get_sent_messages_after_save (calls : list SentMessage) (sender original : Z)
    (w : World) :
  let key := fun r => (sender_id r =? sender) && (original_message_id r =? original) in
  let all := find_many key (sent_messages w) ++ find_many key calls in
  exists w',
    save_all calls w = Ret tt w'
    /\ get_sent_messages sender original w' = Ret (firstn (Z.to_nat 10000) all) w'
    /\ ((List.length all <= Z.to_nat 10000)%nat ->
        get_sent_messages sender original w' = Ret all w').
Proof.
  intros key all. eexists. split; [apply save_all_spec|].
  assert (H : get_sent_messages sender original
                (with_sent_messages (fun l => l ++ calls) w)
              = Ret (firstn (Z.to_nat 10000) all)
                    (with_sent_messages (fun l => l ++ calls) w)).
  { unfold get_sent_messages, gets, find_many, all, key.
    cbn [sent_messages with_sent_messages]. rewrite filter_app. reflexivity. }
  split; [exact H|].
  intros Hlen. rewrite H. rewrite firstn_all2 by exact Hlen. reflexivity.
Qed.

Lemma get_sent_messages_after_save_witness :
  exists w',
    save_all [mkSentMessage 4 72 6 72 40; mkSentMessage 5 73 6 73 41] delete_world
    = Ret tt w'
    /\ get_sent_messages 4 40 w'
       = Ret [mkSentMessage 4 71 4 71 40; mkSentMessage 4 70 5 70 40;
              mkSentMessage 4 72 6 72 40] w'.
Proof.
  destruct (get_sent_messages_after_save
              [mkSentMessage 4 72 6 72 40; mkSentMessage 5 73 6 73 41] 4 40 delete_world)
    as (w' & Hsave & _ & Hall).
  exists w'. split; [exact Hsave|].
  apply Hall. apply Nat.leb_le. vm_compute. reflexivity.
Defined.

(** X20: after [delete_sent_messages] for a sender and a sender message
    id, the ledger holds no record with that pair, so the lookup by that
    sender message id cannot return a record of that sender; the records of
    every other pair are kept, and a second call changes nothing. *)
Theorem delete_sent_messages_removes (sender sender_message : Z) (w : World) :
  exists w',
    delete_sent_messages sender sender_message w = Ret tt w'
    /\ (forall r, In r (sent_messages w') ->
          In r (sent_messages w)
          /\ ~ (sender_id r = sender /\ sender_message_id r = sender_message))
    /\ (forall r, In r (sent_messages w) ->
          ~ (sender_id r = sender /\ sender_message_id r = sender_message) ->
          In r (sent_messages w'))
    /\ (forall r, get_sent_message_id (Some sender_message) None None w'
                  = Ret (FoundDoc r) w' -> sender_id r <> sender)
    /\ delete_sent_messages sender sender_message w' = Ret tt w'.
Proof.
  eexists. split; [reflexivity|].
  cbn [sent_messages with_sent_messages]. unfold delete_many.
  assert (Hkey : forall r,
            negb ((sender_id r =? sender) && (sender_message_id r =? sender_message))
            = true
            <-> ~ (sender_id r = sender /\ sender_message_id r = sender_message)).
  { intros r. rewrite negb_true_iff, andb_false_iff, !Z.eqb_neq. split; [tauto|].
    intros H. destruct (Z.eq_dec (sender_id r) sender); [right|left]; tauto. }
  split; [|split; [|split]].
  - intros r Hin. apply filter_In in Hin. destruct Hin as [Hin Hk].
    split; [exact Hin | apply Hkey; exact Hk].
  - intros r Hin Hk. apply filter_In. split; [exact Hin | apply Hkey; exact Hk].
  - intros r. unfold get_sent_message_id. cbn [truthy val].
    destruct (negb (sender_message =? 0)) eqn:Hz; [|discriminate]. run.
    match goal with |- context [find_one ?p ?l] =>
      destruct (find_one p l) as [r0|] eqn:E end; [|discriminate].
    intros H. injection H as <-.
    apply find_one_in in E. destruct E as [Hin Hp].
    apply filter_In in Hin. destruct Hin as [_ Hk]. apply Hkey in Hk.
    apply Z.eqb_eq in Hp. tauto.
  - unfold delete_sent_messages, modify, with_sent_messages, delete_many.
    cbn [users settings cooldown sent_messages clock trace]. do 2 f_equal.
    induction (sent_messages w) as [|x l IH]; [reflexivity|].
    simpl. destruct (negb _) eqn:E; simpl; [rewrite E|]; congruence.
Qed.

(** ** More on the delete command *)

Lemma delete_copies_trace (tg : Transport) (l : list SentMessage) :
  forall w, exists t,
    for_each l (delete_copy tg) w = Ret tt (add_trace t w)
    /\ List.filter is_delete t = map delete_of l
    /\ List.filter is_reply t = [].
Proof.
  induction l as [|x l IH]; intros w.
  - exists []. rewrite add_trace_nil. repeat split.
  - assert (H1 : exists t1, delete_copy tg x w = Ret tt (add_trace t1 w)
                            /\ List.filter is_delete t1 = [delete_of x]
                            /\ List.filter is_reply t1 = []).
    { unfold delete_copy, bot_delete_message. run.
      destruct (delete_message tg _ _) as [e|].
      - exists [delete_of x; LogException e]. split; [|split; reflexivity].
        unfold logging_exception, modify, add_trace, emit. simpl.
        rewrite <- app_assoc. reflexivity.
      - exists [delete_of x]. repeat split. }
    destruct H1 as (t1 & H1 & Hd1 & Hr1).
    destruct (IH (add_trace t1 w)) as (t2 & H2 & Hd2 & Hr2).
    exists (t1 ++ t2). cbn [for_each].
    rewrite (bind_Ret _ _ w _ tt H1), H2, add_trace_add_trace.
    rewrite !filter_app, Hd1, Hd2, Hr1, Hr2. repeat split.
Qed.

Lemma delete_loop_permitted (tg : Transport) (message : Message)
    (msgs : list SentMessage) :
  forall w,
    is_admin (from_user_id message) w = Ret true w
    \/ Forall (fun msg => sender_id msg = from_user_id message) msgs ->
    exists t,
      delete_loop tg message msgs w = Ret true (add_trace t w)
      /\ List.filter is_delete t
         = flat_map (fun msg =>
                       map delete_of
                           (find_many (fun x => original_message_id x
                                                =? original_message_id msg)
                                      (sent_messages w))) msgs
      /\ List.filter is_reply t = [].
Proof.
  induction msgs as [|msg msgs IH]; intros w Hperm.
  - exists []. rewrite add_trace_nil. repeat split.
  - cbn [delete_loop].
    rewrite (bind_Ret _ _ w w _ (is_admin_reads _ w)).
    assert (Hcond : negb (match find_one (by_user_id (from_user_id message)) (users w) with
                          | Some u => admin u
                          | None => false
                          end)
                    && negb (from_user_id message =? sender_id msg) = false).
    { destruct Hperm as [Ha | Hall].
      - rewrite is_admin_reads in Ha. injection Ha as ->. reflexivity.
      - inversion Hall as [|? ? Hs _]; subst. rewrite Hs, Z.eqb_refl.
        apply andb_false_r. }
    rewrite Hcond. rewrite bind_gets.
    destruct (delete_copies_trace tg
                (find_many (fun x => original_message_id x =? original_message_id msg)
                           (sent_messages w)) w) as (t1 & H1 & Hd1 & Hr1).
    rewrite (bind_Ret _ _ w _ tt H1).
    destruct (IH (add_trace t1 w)) as (t2 & H2 & Hd2 & Hr2).
    { destruct Hperm as [Ha | Hall].
      - left. rewrite is_admin_reads in *. injection Ha as Ha.
        cbn [users add_trace]. rewrite Ha. reflexivity.
      - right. inversion Hall; assumption. }
    exists (t1 ++ t2). rewrite H2, add_trace_add_trace.
    rewrite !filter_app, Hd1, Hd2, Hr1, Hr2. repeat split.
Qed.

Lemma flat_map_const_length {A B} (l : list A) (f : A -> list B) (n : nat) :
  (forall x, In x l -> List.length (f x) = n) ->
  List.length (flat_map f l) = (List.length l * n)%nat.
Proof.
  induction l as [|x l IH]; intros H; [reflexivity|].
  simpl. rewrite length_app, (H x) by (left; reflexivity).
  rewrite IH by (intros y Hy; apply H; right; exact Hy). reflexivity.
Qed.

(** X21: when the issuer of [/del] is an admin, or the sender of every
    record the replied-to message resolves to, the handler reports the
    deletion and has, for each resolved record in turn, asked the transport
    to delete the copy of every record with the same original message id;
    failures of the transport are logged and stop nothing. For a reply to
    the original message, whose records all resolve, each of the [n] copies
    is therefore asked to be deleted [n] times. *)
Theorem delete_by_admin_or_sender (tg : Transport) (message : Message) (r : ReplyTo)
    (msgs : list SentMessage) (w : World) :
  reply_to_message message = Some r ->
  replied_records r w = Ret msgs w ->
  is_admin (from_user_id message) w = Ret true w
  \/ Forall (fun msg => sender_id msg = from_user_id message) msgs ->
  exists t,
    delete_handler tg message w
    = Ret tt (add_trace (t ++ [Reply (from_user_id message) DeletedForAll]) w)
    /\ List.filter is_delete t
       = flat_map (fun msg =>
                     map delete_of
                         (find_many (fun x => original_message_id x
                                              =? original_message_id msg)
                                    (sent_messages w))) msgs
    /\ List.filter is_reply t = []
    /\ (reply_from_is_bot r = false ->
        List.length (List.filter is_delete t)
        = (List.length msgs * List.length msgs)%nat).
Proof.
  intros Hr Hm Hperm.
  destruct (delete_loop_permitted tg message msgs w Hperm) as (t & Hl & Hd & Hrp).
  exists t. split; [|split; [exact Hd | split; [exact Hrp|]]].
  - unfold delete_handler. rewrite Hr.
    rewrite (bind_Ret _ _ w w msgs Hm), (bind_Ret _ _ w _ true Hl).
    rewrite <- add_trace_add_trace. reflexivity.
  - intros Hbot. rewrite Hd.
    unfold replied_records in Hm. rewrite Hbot in Hm.
    unfold gets in Hm. injection Hm as Hm.
    apply flat_map_const_length. intros x Hx.
    rewrite length_map. rewrite <- Hm in Hx. unfold find_many in Hx.
    apply filter_In in Hx. destruct Hx as [_ Hx]. apply Z.eqb_eq in Hx.
    rewrite Hx, <- Hm. reflexivity.
Qed.

Lemma delete_by_admin_or_sender_witness :
  let message := mkMessage 4 None 73 (Some (mkReplyTo 40 false)) "" "/del" in
  exists t,
    delete_handler scenario_transport message delete_world
    = Ret tt (add_trace (t ++ [Reply 4 DeletedForAll]) delete_world)
    /\ List.filter is_delete t
       = flat_map (fun msg =>
                     map delete_of
                         (find_many (fun x => original_message_id x
                                              =? original_message_id msg)
                                    (sent_messages delete_world)))
                  (sent_messages delete_world)
    /\ List.filter is_reply t = []
    /\ (false = false ->
        List.length (List.filter is_delete t) = (2 * 2)%nat).
Proof.
  apply (delete_by_admin_or_sender scenario_transport
           (mkMessage 4 None 73 (Some (mkReplyTo 40 false)) "" "/del")
           (mkReplyTo 40 false) (sent_messages delete_world) delete_world).
  - reflexivity.
  - reflexivity.
  - right. repeat constructor.
Defined.

(** ** Edits *)

Lemma edit_cor_spec (tg : Transport) (message : Message) (r : SentMessage)
    (mk : option string) (w : World) :
  exists w',
    edit_cor tg message r mk w = Ret tt w'
    /\ trace w' = trace w ++ edit_effects tg message mk r
    /\ (forall x, In x (users w') -> In x (users w))
    /\ sent_messages w' = sent_messages w /\ cooldown w' = cooldown w
    /\ settings w' = settings w.
Proof.
  unfold edit_cor, bot_edit_message_text, edit_effects, edit_of. run.
  destruct (edit_message_text tg _ _) as [e|]; [destruct e|].
  all: unfold logging_exception, users_delete_one, modify, emit, with_users.
  all: cbn [trace users settings cooldown sent_messages clock].
  all: rewrite <- ?app_assoc; eexists; split; [reflexivity|].
  all: cbn [trace users settings cooldown sent_messages clock].
  all: split; [reflexivity|].
  all: repeat split; try tauto.
  all: apply delete_one_In.
Qed.

Lemma edit_loop_spec (tg : Transport) (message : Message) (mk : option string)
    (l : list SentMessage) :
  forall w, exists w',
    for_each l (fun sent_message => edit_cor tg message sent_message mk) w = Ret tt w'
    /\ trace w' = trace w ++ flat_map (edit_effects tg message mk) l
    /\ (forall x, In x (users w') -> In x (users w))
    /\ sent_messages w' = sent_messages w /\ cooldown w' = cooldown w
    /\ settings w' = settings w.
Proof.
  induction l as [|r l IH]; intros w.
  - exists w. cbn [flat_map]. rewrite app_nil_r. repeat split; auto.
  - destruct (edit_cor_spec tg message r mk w)
      as (w1 & H1 & Ht1 & Hu1 & Hm1 & Hc1 & Hs1).
    destruct (IH w1) as (w' & H2 & Ht2 & Hu2 & Hm2 & Hc2 & Hs2).
    exists w'. cbn [for_each flat_map].
    rewrite (bind_Ret _ _ w w1 tt H1).
    split; [exact H2|].
    rewrite Ht2, Ht1, app_assoc.
    repeat split; try congruence.
    intros x Hx. apply Hu1, Hu2, Hx.
Qed.

(** X22: an edit by a sender who is in the directory is passed on without
    any admission check. The handler asks the transport to edit, with the
    text followed by " (edited)", the copy of each of the first 10000
    records kept for that sender and that original message, and logs the
    exceptions that are not an unreachable recipient; up to the order among
    them these are all its effects, so for a message without records it
    does nothing. It leaves the ledger and the cooldown records as they
    were, and removes from the directory at most recipients. *)
Theorem edit_propagates (tg : Transport) (message : Message) (user : User) (w : World) :
  find_one (by_user_id (from_user_id message)) (users w) = Some user ->
  exists mk w1 w' t,
    sender_markup message user w = Ret mk w1
    /\ edit_handler tg message w = Ret tt w'
    /\ trace w' = trace w ++ t
    /\ Permutation t
         (flat_map (edit_effects tg message mk)
                   (sent_for (from_user_id message) (message_id message)
                             (sent_messages w)))
    /\ (forall x, In x (users w') -> In x (users w))
    /\ sent_messages w' = sent_messages w /\ cooldown w' = cooldown w.
Proof.
  intros Hu.
  destruct (sender_markup_spec message user w)
    as (mk & w1 & Hmk & Hus & Hcd & Hsm & Hk & Htr).
  set (found := sent_for (from_user_id message) (message_id message) (sent_messages w)).
  destruct (edit_loop_spec tg message mk found w1)
    as (w' & Hrun & Ht & Hin & Hm & Hc & _).
  exists mk, w1, w', (flat_map (edit_effects tg message mk) found).
  split; [exact Hmk|]. split.
  - unfold edit_handler.
    rewrite (bind_Ret _ _ w w (Some user))
      by (unfold users_find_one, gets; rewrite Hu; reflexivity).
    rewrite (bind_Ret _ _ w w user) by reflexivity.
    rewrite (bind_Ret _ _ w w1 mk) by assumption.
    rewrite (bind_Ret _ _ w1 w1 found)
      by (unfold get_sent_messages, gets, found, sent_for; rewrite Hsm; reflexivity).
    exact Hrun.
  - split; [congruence|]. split; [apply Permutation_refl|].
    split; [|split; congruence].
    intros x Hx. rewrite <- Hus. apply Hin, Hx.
Qed.

Lemma edit_propagates_witness :
  let message := mkMessage 4 None 40 None "" "hi" in
  exists mk w1 w' t,
    sender_markup message (mkUser 4 false false) delete_world = Ret mk w1
    /\ edit_handler scenario_transport message delete_world = Ret tt w'
    /\ trace w' = trace delete_world ++ t
    /\ Permutation t
         (flat_map (edit_effects scenario_transport message mk)
                   (sent_for 4 40 (sent_messages delete_world)))
    /\ (forall x, In x (users w') -> In x (users delete_world))
    /\ sent_messages w' = sent_messages delete_world
    /\ cooldown w' = cooldown delete_world.
Proof.
  apply (edit_propagates scenario_transport (mkMessage 4 None 40 None "" "hi")
           (mkUser 4 false false) delete_world).
  reflexivity.
Defined.
